(** * private-gpt: completions, chat, chat histories, authentication, ingestion

    A shallow embedding of the request handlers of the private-gpt backend:
    - [private_gpt/completions/routes.py] and [src/api/main.py]
      (server-sent-event streaming of completions),
    - [private_gpt/server/chat/chat_service.py] (chat with or without context),
    - [private_gpt/users/api/v1/routers/chat_histories.py],
    - [private_gpt/users/api/deps.py] ([get_current_user]),
    - [private_gpt/server/ingest/ingest_router.py] and the [Document] model.

    Python exceptions are values of [exn]; a handler that touches a store is
    a function from the store to an outcome and the store it leaves behind,
    so that what a raising handler has already written stays written. *)

From Stdlib Require Import ZArith Lia Bool.
From stdpp Require Import base strings list gmap.

Local Open Scope Z_scope.
Local Open Scope string_scope.
Local Open Scope list_scope.

(** ** Python values shared by all handlers *)

Module Py.

(** The exception classes the handlers raise or catch.  All of them derive
    from [Exception]; [HTTPException] carries what FastAPI turns into the
    response. *)
Inductive exn : Type :=
| HTTPException (status_code : Z) (detail : string) (headers : list (string * string))
| JWTError
| ValidationError
| IndexError
| KeyError (key : string)
| AttributeError (attr : string)
| TypeError (msg : string)
| IntegrityError (msg : string)
| OSError (msg : string)
| RuntimeError (msg : string).

Definition is_HTTPException (e : exn) : bool :=
  match e with HTTPException _ _ _ => true | _ => false end.

(** [str(e)] as used in the f-strings that report an error. *)
Definition str_exn (e : exn) : string :=
  match e with
  | HTTPException _ d _ => d
  | JWTError => "JWTError"
  | ValidationError => "ValidationError"
  | IndexError => "list index out of range"
  | KeyError k => k
  | AttributeError a => a
  | TypeError m => m
  | IntegrityError m => m
  | OSError m => m
  | RuntimeError m => m
  end.

Inductive result (A : Type) : Type :=
| Return (a : A)
| Raise (e : exn).
Arguments Return {A} a.
Arguments Raise {A} e.

Definition is_Return {A} (r : result A) : bool :=
  match r with Return _ => true | Raise _ => false end.

(** The newline of the f-strings. *)
Definition nl : string := String (Ascii.ascii_of_nat 10) EmptyString.

(** A computation over a store [St]: the outcome and the store afterwards. *)
Definition M (St A : Type) : Type := St -> result A * St.

Definition ret {St A} (a : A) : M St A := fun s => (Return a, s).
Definition raise {St A} (e : exn) : M St A := fun s => (Raise e, s).
Definition bind {St A B} (m : M St A) (k : A -> M St B) : M St B :=
  fun s => match m s with
           | (Return a, s') => k a s'
           | (Raise e, s') => (Raise e, s')
           end.
Definition get {St} : M St St := fun s => (Return s, s).
Definition modify {St} (f : St -> St) : M St unit := fun s => (Return tt, f s).
Definition lift {St A} (r : result A) : M St A := fun s => (r, s).

(** [try: body except <classes> as e: handler e], where [catches e] says
    whether [e] is an instance of one of the listed classes. *)
Definition try_except {St A} (body : M St A) (catches : exn -> bool)
    (handler : exn -> M St A) : M St A :=
  fun s => match body s with
           | (Return a, s') => (Return a, s')
           | (Raise e, s') => if catches e then handler e s' else (Raise e, s')
           end.

(** [except Exception]: every exception of [exn] is an [Exception]. *)
Definition Exception (e : exn) : bool := true.

(** [for x in xs: body x] *)
Fixpoint for_each {St A} (xs : list A) (body : A -> M St unit) : M St unit :=
  match xs with
  | [] => ret tt
  | x :: xs' => bind (body x) (fun _ => for_each xs' body)
  end.

End Py.
Import Py.

Notation "x <- m ;; k" := (bind m (fun x => k))
  (at level 100, m at next level, right associativity).
Notation "m ;;; k" := (bind m (fun _ => k))
  (at level 100, right associativity).

(** ** private_gpt/completions/routes.py *)

Module Completions.

(** [llama_index.llms.CompletionResponse]: the fields the routes read. *)
Record CompletionResponse : Type := {
  text : string;
  delta : option string;
}.

Record StreamingResponse : Type := {
  body_iterator : list string;
  media_type : string;
}.

Definition DONE : string := "data: [DONE]" +:+ nl +:+ nl.

Section Routes.
(** [OpenAICompletion.simple_json_delta] lives in
    [private_gpt/open_ai/openai_models.py]; it is taken as given. *)
Variable simple_json_delta : option string -> string.
(** [CompletionsService.stream_complete], the LLM response generator. *)
Variable stream_complete : string -> list CompletionResponse.

Definition sse_event (response : CompletionResponse) : string :=
  "data: " +:+ simple_json_delta (delta response) +:+ nl +:+ nl.

(** The generator [_to_openai_sse_stream], drained. *)
Definition _to_openai_sse_stream (response_generator : list CompletionResponse)
  : list string :=
  (map sse_event response_generator ++ [DONE])%list.

(** The same generator one [next()] at a time: it is either inside the
    [for] loop over what is left of [response_generator], or past the
    final [yield]. *)
Inductive sse_gen : Type :=
| InLoop (rest : list CompletionResponse)
| Finished.

Definition sse_next (g : sse_gen) : option (string * sse_gen) :=
  match g with
  | InLoop (response :: rest) => Some (sse_event response, InLoop rest)
  | InLoop [] => Some (DONE, Finished)
  | Finished => None
  end.

Fixpoint drain (fuel : nat) (g : sse_gen) : list string :=
  match fuel with
  | O => []
  | S fuel' => match sse_next g with
               | Some (ev, g') => ev :: drain fuel' g'
               | None => []
               end
  end.

Definition _run_llm (prompt : string) : StreamingResponse :=
  let response_generator := stream_complete prompt in
  {| body_iterator := _to_openai_sse_stream response_generator;
     media_type := "text/event-stream" |}.

(** POST /completions *)
Definition completions (body_prompt : string) : StreamingResponse :=
  _run_llm body_prompt.

(** GET /completions *)
Definition basic_completions (prompt : string) : StreamingResponse :=
  _run_llm prompt.
End Routes.

End Completions.

(** ** src/api/main.py *)

Module ApiMain.
Import Completions.

Record LlamaCPP : Type := {
  context_window : nat;
  max_new_tokens : nat;
  llm_stream_complete : string -> list CompletionResponse;
}.

(** [prompt[:n]] *)
Definition str_prefix (n : nat) (prompt : string) : string :=
  String.substring 0 n prompt.

Section Main.
Variable simple_json_delta : option string -> string.
(** The model file loaded by [LlamaCPP(...)]: what it streams for a prompt. *)
Variable llama : string -> list CompletionResponse.

(** The module-level [llms = {}] and what [_lifespan] stores in it. *)
Definition _lifespan (llms : gmap string LlamaCPP) : gmap string LlamaCPP :=
  <["llama" := {| context_window := 3900; max_new_tokens := 256;
                  llm_stream_complete := llama |}]> llms.

(** [_run_llm]: [llms["llama"]] raises [KeyError] when the key is absent. *)
Definition _run_llm (llms : gmap string LlamaCPP) (prompt : string)
  : result (list string) :=
  match llms !! "llama" with
  | None => Raise (KeyError "llama")
  | Some llm =>
      let truncated_prompt := str_prefix (context_window llm) prompt in
      let response_iter := llm_stream_complete llm truncated_prompt in
      Return (map (sse_event simple_json_delta) response_iter ++ [DONE])%list
  end.

(** POST / *)
Definition inference (llms : gmap string LlamaCPP) (body_prompt : string)
  : result StreamingResponse :=
  match _run_llm llms body_prompt with
  | Return it => Return {| body_iterator := it; media_type := "text/event-stream" |}
  | Raise e => Raise e
  end.
End Main.

End ApiMain.

(** ** private_gpt/server/chat/chat_service.py *)

Module ChatService.

(** [llama_index.llms.ChatMessage] *)
Record ChatMessage : Type := {
  role : string;
  content : option string;
}.

(** [VectorIndexRetriever(index=self.index, node_ids=node_ids)] *)
Record VectorIndexRetriever : Type := {
  node_ids : list string;
}.

(** [ContextChatEngine.from_defaults(retriever=..., service_context=...)] *)
Record ContextChatEngine : Type := {
  retriever : VectorIndexRetriever;
}.

(** What [_chat_with_contex] hands back: a [StreamingAgentChatResponse]
    (with [response_gen]) or an [AgentChatResponse] (with [response]). *)
Inductive AgentResponse : Type :=
| StreamingAgentChatResponse (response_gen : list string)
| AgentChatResponse (response : string).

Definition get_response_gen (r : AgentResponse) : result (list string) :=
  match r with
  | StreamingAgentChatResponse g => Return g
  | AgentChatResponse _ => Raise (AttributeError "response_gen")
  end.

Definition get_response (r : AgentResponse) : result string :=
  match r with
  | AgentChatResponse s => Return s
  | StreamingAgentChatResponse _ => Raise (AttributeError "response")
  end.

(** The requests the service sends to its collaborators, in order. *)
Inductive Call : Type :=
| EngineStreamChat (engine : ContextChatEngine) (message : string)
    (chat_history : list ChatMessage)
| EngineChat (engine : ContextChatEngine) (message : string)
    (chat_history : list ChatMessage)
| LlmStreamChat (messages : list ChatMessage)
| LlmChat (messages : list ChatMessage).

Definition Trace : Type := list Call.

Definition record (c : Call) : M Trace unit := modify (fun t => (t ++ [c])%list).

(** [xs[-1]] *)
Definition index_last {A} (xs : list A) : result A :=
  match last xs with
  | Some x => Return x
  | None => Raise IndexError
  end.

(** [xs[:-1]] *)
Definition slice_but_last {A} (xs : list A) : list A := removelast xs.

Section Service.
(** [ContextFiles] ([private_gpt/open_ai/extensions/context_files.py]) is
    not among the sources: the type and its truth value, as tested by
    [if context_files:], are taken as given. *)
Variable ContextFiles : Type.
Variable truth : ContextFiles -> bool.
Variable DocStore : Type.
(** [private_gpt.node_store.node_utils.get_context_nodes] *)
Variable get_context_nodes : ContextFiles -> DocStore -> list string.
Variable docstore : DocStore.
(** The answers of the llama_index objects. *)
Variable engine_stream_chat :
  ContextChatEngine -> string -> list ChatMessage -> list string.
Variable engine_chat :
  ContextChatEngine -> string -> list ChatMessage -> string.
Variable llm_stream_chat : list ChatMessage -> list string.
Variable llm_chat : list ChatMessage -> option string.

(** [if context_files:] with [context_files : ContextFiles | None] *)
Definition if_context_files (context_files : option ContextFiles) : bool :=
  match context_files with
  | None => false
  | Some cf => truth cf
  end.

Definition _chat_with_contex (message : string) (context_files : ContextFiles)
    (chat_history : list ChatMessage) (streaming : bool) : M Trace AgentResponse :=
  let node_ids := get_context_nodes context_files docstore in
  let vector_index_retriever := {| node_ids := node_ids |} in
  let chat_engine := {| retriever := vector_index_retriever |} in
  if streaming then
    record (EngineStreamChat chat_engine message chat_history) ;;;
    ret (StreamingAgentChatResponse
           (engine_stream_chat chat_engine message chat_history))
  else
    record (EngineChat chat_engine message chat_history) ;;;
    ret (AgentChatResponse (engine_chat chat_engine message chat_history)).

Definition stream_chat (messages : list ChatMessage)
    (context_files : option ContextFiles) : M Trace (list string) :=
  match context_files with
  | Some cf =>
      if truth cf then
        last_m <- lift (index_last messages) ;;
        let last_message := content last_m in
        response <- _chat_with_contex
                      (match last_message with Some s => s | None => EmptyString end)
                      cf (slice_but_last messages) true ;;
        lift (get_response_gen response)
      else
        record (LlmStreamChat messages) ;;; ret (llm_stream_chat messages)
  | None =>
      record (LlmStreamChat messages) ;;; ret (llm_stream_chat messages)
  end.

Definition chat (messages : list ChatMessage)
    (context_files : option ContextFiles) : M Trace string :=
  match context_files with
  | Some cf =>
      if truth cf then
        last_m <- lift (index_last messages) ;;
        let last_message := content last_m in
        wrapped_response <- _chat_with_contex
                      (match last_message with Some s => s | None => EmptyString end)
                      cf (slice_but_last messages) false ;;
        lift (get_response wrapped_response)
      else
        record (LlmChat messages) ;;;
        ret (match llm_chat messages with Some s => s | None => EmptyString end)
  | None =>
      record (LlmChat messages) ;;;
      ret (match llm_chat messages with Some s => s | None => EmptyString end)
  end.
End Service.

End ChatService.

(** ** private_gpt/users/api/v1/routers/chat_histories.py *)

Module ChatHistories.

(** [models.User]: the field the router reads. *)
Record User : Type := {
  id : Z;
}.

(** A row of the chat-history table. *)
Record ChatHistory : Type := {
  conversation_id : Z;
  user_id : Z;
  title : string;
  chat_items : list string;
}.

(** [schemas.ChatCreate], [schemas.ChatUpdate], [schemas.ChatDelete] *)
Record ChatCreate : Type := { new_title : string }.
Record ChatUpdate : Type := { upd_conversation_id : Z; upd_message : string }.
Record ChatDelete : Type := { del_id : Z }.

Record JSONResponse : Type := {
  status_code : Z;
  json_content : list (string * string);
}.

Definition internal_server_error : exn :=
  HTTPException 500 "Internal Server Error" [].

Definition not_found : exn := HTTPException 404 "Chat history not found" [].

(** [chat_history.user_id != current_user.id] *)
Definition foreign (ch : ChatHistory) (current_user : User) : bool :=
  negb (user_id ch =? id current_user)%Z.

(** [crud.chat], over the store [DB] behind the [Session]: the calls the
    router makes.  Each may write and each may raise. *)
Class ChatCrud (DB : Type) : Type := {
  crud_chat_get_by_id : Z -> M DB (option ChatHistory);
  crud_chat_get : Z -> M DB (option ChatHistory);
  crud_chat_get_multi : Z -> Z -> Z -> M DB (list ChatHistory);
  crud_chat_create : ChatCreate -> Z -> M DB ChatHistory;
  crud_chat_update_messages : ChatHistory -> ChatUpdate -> M DB ChatHistory;
  crud_chat_remove : Z -> M DB unit;
}.

Section Router.
Context {DB : Type} `{ChatCrud DB}.

(** GET /c *)
Definition list_chat_histories (skip limit : Z) (current_user : User)
  : M DB (list ChatHistory) :=
  try_except
    (chat_histories <- crud_chat_get_multi skip limit (id current_user) ;;
     ret chat_histories)
    Exception
    (fun e => raise internal_server_error).

(** POST /c/create *)
Definition create_chat_history (chat_history_in : ChatCreate) (current_user : User)
  : M DB ChatHistory :=
  try_except
    (chat_history <- crud_chat_create chat_history_in (id current_user) ;;
     ret chat_history)
    Exception
    (fun e => raise internal_server_error).

(** GET /c/{chat_history_id} *)
Definition read_chat_history (chat_history_id : Z) (current_user : User)
  : M DB ChatHistory :=
  try_except
    (chat_history <- crud_chat_get_by_id chat_history_id ;;
     match chat_history with
     | None => raise not_found
     | Some ch =>
         if foreign ch current_user then raise not_found else ret ch
     end)
    Exception
    (fun e => raise internal_server_error).

(** POST /c/conversation *)
Definition conversation (chat_history_in : ChatUpdate) (current_user : User)
  : M DB ChatHistory :=
  try_except
    (chat_history <- crud_chat_get_by_id (upd_conversation_id chat_history_in) ;;
     match chat_history with
     | None => raise not_found
     | Some ch =>
         if foreign ch current_user then raise not_found
         else
           updated_chat_history <- crud_chat_update_messages ch chat_history_in ;;
           ret updated_chat_history
     end)
    Exception
    (fun e => raise internal_server_error).

(** POST /c/delete *)
Definition delete_chat_history (chat_history_in : ChatDelete) (current_user : User)
  : M DB JSONResponse :=
  try_except
    (let chat_history_id := del_id chat_history_in in
     chat_history <- crud_chat_get chat_history_id ;;
     match chat_history with
     | None => raise not_found
     | Some ch =>
         if foreign ch current_user then raise not_found
         else
           crud_chat_remove chat_history_id ;;;
           ret {| status_code := 200;
                  json_content := [("message", "Chat history deleted successfully")] |}
     end)
    Exception
    (fun e => raise internal_server_error).
End Router.

(** The chat-history table as the list of its rows. *)
Definition Table : Type := list ChatHistory.

Definition has_id (i : Z) (c : ChatHistory) : bool := (conversation_id c =? i)%Z.

(** Modelled from the spec: [crud.chat] ([private_gpt/users/crud]) is not
    among the sources.  [get_by_id] and [get] look a row up by its id and
    give [None] when there is none; neither writes. *)
Definition table_get (i : Z) : M Table (option ChatHistory) :=
  fun db => (Return (find (has_id i) db), db).

(** Modelled from the spec: [crud.chat.get_multi(db, skip, limit, user_id)]
    pages through the chat histories of [user_id]. *)
Definition table_get_multi (skip limit uid : Z) : M Table (list ChatHistory) :=
  fun db =>
    (Return (take (Z.to_nat limit)
               (drop (Z.to_nat skip) (filter (fun c => user_id c = uid) db))), db).

Definition fresh_id (db : Table) : Z :=
  1 + foldr (fun c acc => Z.max (conversation_id c) acc) 0 db.

(** Modelled from the spec: [crud.chat.create] adds a row owned by
    [user_id] and gives it back. *)
Definition table_create (obj_in : ChatCreate) (uid : Z) : M Table ChatHistory :=
  fun db =>
    let row := {| conversation_id := fresh_id db; user_id := uid;
                  title := new_title obj_in; chat_items := [] |} in
    (Return row, (db ++ [row])%list).

(** Modelled from the spec: [crud.chat.update_messages] appends the message
    to the row and gives the updated row back. *)
Definition table_update_messages (db_obj : ChatHistory) (obj_in : ChatUpdate)
  : M Table ChatHistory :=
  fun db =>
    let row := {| conversation_id := conversation_id db_obj;
                  user_id := user_id db_obj; title := title db_obj;
                  chat_items := (chat_items db_obj ++ [upd_message obj_in])%list |} in
    (Return row,
     map (fun c => if has_id (conversation_id db_obj) c then row else c) db).

(** Modelled from the spec: [crud.chat.remove] deletes the row with the id. *)
Definition table_remove (i : Z) : M Table unit :=
  fun db => (Return tt, filter (fun c => conversation_id c ≠ i) db).

#[global] Instance table_crud : ChatCrud Table := {|
  crud_chat_get_by_id := table_get;
  crud_chat_get := table_get;
  crud_chat_get_multi := table_get_multi;
  crud_chat_create := table_create;
  crud_chat_update_messages := table_update_messages;
  crud_chat_remove := table_remove;
|}.

End ChatHistories.

(** ** private_gpt/users/api/deps.py *)

Module Deps.

(** The values a JWT claim can take. *)
Inductive Json : Type :=
| JNull
| JBool (b : bool)
| JInt (n : Z)
| JStr (s : string).

Definition Payload : Type := gmap string Json.

(** [payload.get(key)]: an absent key and a [null] claim both give [None]. *)
Definition payload_get (payload : Payload) (key : string) : option Json :=
  match payload !! key with
  | Some JNull => None
  | other => other
  end.

(** [schemas.TokenPayload]: the fields [get_current_user] reads. *)
Record TokenPayload : Type := {
  id : Z;
  role : option string;
}.

Record SecurityScopes : Type := {
  scopes : list string;
}.

(** [" ".join(scopes)] *)
Definition scope_str (s : SecurityScopes) : string := String.concat " " (scopes s).

(** [bool(xs)] of a list and of an optional string. *)
Definition nonempty {A} (xs : list A) : bool :=
  match xs with [] => false | _ :: _ => true end.

Definition truthy_str (s : option string) : bool :=
  match s with
  | None => false
  | Some r => negb (String.eqb r EmptyString)
  end.

(** [token_data.role not in security_scopes.scopes] *)
Definition role_not_in (r : option string) (scs : list string) : bool :=
  match r with
  | None => true
  | Some x => negb (bool_decide (x ∈ scs))
  end.

Definition dquote : string := String (Ascii.ascii_of_nat 34) EmptyString.

Section GetCurrentUser.
Variables User Session : Type.
(** [jose.jwt.decode(token, key, algorithms)]: the payload, or [None]
    where it raises a [JWTError]. *)
Variable jwt_decode : string -> string -> list string -> option Payload.
(** [private_gpt.users.core.security] *)
Variables JWT_SECRET_KEY ALGORITHM : string.
(** [schemas.TokenPayload] built from the payload: the fields, or [None] where
    pydantic raises a [ValidationError]. *)
Variable TokenPayload_of : Payload -> option TokenPayload.
(** [crud.user.get(db, id=...)] *)
Variable crud_user_get : Session -> Z -> option User.

Definition authenticate_value (security_scopes : SecurityScopes) : string :=
  if nonempty (scopes security_scopes)
  then "Bearer scope=" +:+ dquote +:+ scope_str security_scopes +:+ dquote
  else "Bearer".

Definition credentials_exception (security_scopes : SecurityScopes) : exn :=
  HTTPException 401 "os"
    [("WWW-Authenticate", authenticate_value security_scopes)].

Definition not_enough_permissions (security_scopes : SecurityScopes) : exn :=
  HTTPException 401 "Not enough permissions"
    [("WWW-Authenticate", authenticate_value security_scopes)].

Definition could_not_validate : exn :=
  HTTPException 403 "Could not validate credentials" [].

Definition JWTError_or_ValidationError (e : exn) : bool :=
  match e with
  | JWTError | ValidationError => true
  | _ => false
  end.

Definition get_current_user (security_scopes : SecurityScopes) (token : string)
  : M Session User :=
  token_data <-
    try_except
      (payload <- lift (match jwt_decode token JWT_SECRET_KEY [ALGORITHM] with
                        | Some p => Return p
                        | None => Raise JWTError
                        end) ;;
       match payload_get payload "id" with
       | None => raise (credentials_exception security_scopes)
       | Some _ =>
           lift (match TokenPayload_of payload with
                 | Some td => Return td
                 | None => Raise ValidationError
                 end)
       end)
      JWTError_or_ValidationError
      (fun e => raise could_not_validate) ;;
  db <- get ;;
  match crud_user_get db (id token_data) with
  | None => raise (credentials_exception security_scopes)
  | Some user =>
      if nonempty (scopes security_scopes) && negb (truthy_str (role token_data))
      then raise (not_enough_permissions security_scopes)
      else if nonempty (scopes security_scopes)
              && role_not_in (role token_data) (scopes security_scopes)
      then raise (not_enough_permissions security_scopes)
      else ret user
  end.
End GetCurrentUser.

(** [models.Subscription], [models.Company], [models.UserRole]: the fields
    [get_active_subscription] reads. *)
Record Subscription : Type := {
  is_active : bool;
}.

Record Company : Type := {
  company_name : string;
  subscriptions : list Subscription;
}.

Record UserRole : Type := {
  company_id : option Z;
}.

Section Guards.
Variables User Session : Type.
Variable jwt_decode : string -> string -> list string -> option Payload.
Variables JWT_SECRET_KEY ALGORITHM : string.
Variable TokenPayload_of : Payload -> option TokenPayload.
Variable crud_user_get : Session -> Z -> option User.
(** [crud.user.is_active(user)] *)
Variable crud_user_is_active : User -> bool.
(** [current_user.user_role]; [None] when the user has no role row. *)
Variable user_role : User -> option UserRole.
(** [crud.company.get(db, id)] *)
Variable crud_company_get : Session -> Z -> option Company.

(** [get_current_active_user]: its dependency is [get_current_user], run
    with the security scopes [security_scopes] the route has collected (the
    function itself adds none: [scopes=[]]). *)
Definition get_current_active_user (security_scopes : SecurityScopes)
    (token : string) : M Session User :=
  current_user <- get_current_user User Session jwt_decode JWT_SECRET_KEY
                    ALGORITHM TokenPayload_of crud_user_get security_scopes token ;;
  if negb (crud_user_is_active current_user)
  then raise (HTTPException 400 "Inactive user" [])
  else ret current_user.

(** [get_company_name] *)
Definition get_company_name (cid : Z) : M Session string :=
  db <- get ;;
  match crud_company_get db cid with
  | None => raise (HTTPException 404 "Company not found" [])
  | Some company => ret (company_name company)
  end.

Definition no_active_subscription : exn :=
  HTTPException 403 "Access Forbidden - No Active Subscription" [].

(** [next((sub for sub in subs if sub.is_active), None)] *)
Definition first_active (subs : list Subscription) : option Subscription :=
  find is_active subs.

(** [get_active_subscription]; [if company_id:] is false for [None] and for
    [0]. *)
Definition get_active_subscription (current_user : User) : M Session Company :=
  match user_role current_user with
  | None => raise (AttributeError "company_id")
  | Some ur =>
      db <- get ;;
      match company_id ur with
      | Some cid =>
          if negb (cid =? 0)%Z then
            match crud_company_get db cid with
            | Some company =>
                if nonempty (subscriptions company) then
                  match first_active (subscriptions company) with
                  | Some _ => ret company
                  | None => raise no_active_subscription
                  end
                else raise no_active_subscription
            | None => raise no_active_subscription
            end
          else raise no_active_subscription
      | None => raise no_active_subscription
      end
  end.
End Guards.

End Deps.

(** ** private_gpt/server/ingest/ingest_router.py *)

Module IngestRouter.

(** [fastapi.UploadFile]: the name sent by the client and the bytes of
    [file.file.read()]. *)
Record UploadFile : Type := {
  filename : option string;
  file_bytes : string;
}.

(** [models.User] *)
Record User : Type := {
  id : Z;
  fullname : string;
  department_id : option Z;
}.

(** [private_gpt.server.ingest.model.IngestedDoc] *)
Record IngestedDoc : Type := {
  doc_id : string;
  doc_metadata : list (string * string);
}.

Record IngestResponse : Type := {
  object : string;
  model : string;
  data : list IngestedDoc;
}.

Record IngestTextBody : Type := {
  file_name : string;
  text : string;
}.

Record DeleteFilename : Type := {
  del_filename : string;
}.

(** What a handler hands back to FastAPI: an [IngestResponse] or a plain
    [dict]. *)
Inductive Response : Type :=
| RIngestResponse (r : IngestResponse)
| RDict (entries : list (string * string)).

(** A row of the table [document] ([private_gpt/users/models/document.py]):
    [id] is the primary key, [filename] is [unique=True], [uploaded_by] and
    [department_id] are [nullable=False]. *)
Record Document : Type := {
  row_id : Z;
  row_filename : string;
  uploaded_by : Z;
  row_department_id : Z;
}.

(** [schemas.DocumentCreate] *)
Record DocumentCreate : Type := {
  dc_filename : string;
  dc_uploaded_by : Z;
  dc_department_id : option Z;
}.

(** A row written by [log_audit]. *)
Record Audit : Type := {
  audit_model : string;
  audit_action : string;
  audit_details : list (string * string);
  audit_user_id : Z;
}.

(** [private_gpt.server.ingest.ingest_service.IngestService], over the
    storage context [S] it owns.  The two queries do not write. *)
Class IngestService (S : Type) : Type := {
  ingest_bin_data : string -> string -> M S (list IngestedDoc);
  ingest_text : string -> string -> M S (list IngestedDoc);
  list_ingested : S -> result (list IngestedDoc);
  delete : string -> M S unit;
  get_doc_ids_by_filename : string -> S -> result (list string);
}.

(** Everything the router reads and writes: the document table, the upload
    directory (path to contents), the storage context of the ingest service
    and the audit table. *)
Record World (S : Type) : Type := {
  documents : list Document;
  uploads : gmap string string;
  service : S;
  audits : list Audit;
}.
Arguments documents {S} w.
Arguments uploads {S} w.
Arguments service {S} w.
Arguments audits {S} w.

(** The objects a parameter of [ingest_file] can be bound to: what FastAPI
    injects ([UploadFile], [User], [Session], the audit logger), or the
    declared default of the parameter ([Depends(...)], [File(...)],
    [Security(...)]) when the function is called directly without it. *)
Inductive PyVal : Type :=
| VUploadFile (f : UploadFile)
| VUser (u : User)
| VSession
| VAuditLogger
| VDepends
| VFile
| VSecurity.

Definition attr_filename (v : PyVal) : result (option string) :=
  match v with
  | VUploadFile f => Return (filename f)
  | _ => Raise (AttributeError "filename")
  end.

Definition attr_file_read (v : PyVal) : result string :=
  match v with
  | VUploadFile f => Return (file_bytes f)
  | _ => Raise (AttributeError "file")
  end.

Definition attr_id (v : PyVal) : result Z :=
  match v with
  | VUser u => Return (id u)
  | _ => Raise (AttributeError "id")
  end.

Definition attr_fullname (v : PyVal) : result string :=
  match v with
  | VUser u => Return (fullname u)
  | _ => Raise (AttributeError "fullname")
  end.

Definition attr_department_id (v : PyVal) : result (option Z) :=
  match v with
  | VUser u => Return (department_id u)
  | _ => Raise (AttributeError "department_id")
  end.

(** [db.query(...)] on something that is not a [Session]. *)
Definition as_session (v : PyVal) : result unit :=
  match v with
  | VSession => Return tt
  | _ => Raise (AttributeError "query")
  end.

Definition nonempty {A} (xs : list A) : bool :=
  match xs with [] => false | _ :: _ => true end.

Section Router.
Context {S : Type} `{IngestService S}.
(** [private_gpt.constants.UPLOAD_DIR] *)
Variable UPLOAD_DIR : string.
(** The paths [open(path, "wb")] can create or overwrite. *)
Variable can_write : string -> bool.

Definition W : Type := World S.

Definition on_service {A} (m : M S A) : M W A :=
  fun w => let (r, s') := m (service w) in
           (r, {| documents := documents w; uploads := uploads w;
                  service := s'; audits := audits w |}).

Definition ask_service {A} (q : S -> result A) : M W A :=
  fun w => (q (service w), w).

(** [Path(f"{UPLOAD_DIR}/{filename}")] *)
Definition upload_path_of (name : string) : string := UPLOAD_DIR +:+ "/" +:+ name.

(** [with open(path, "wb") as f: f.write(data)] *)
Definition write_file (path data : string) : M W unit :=
  fun w => if can_write path
           then (Return tt, {| documents := documents w;
                               uploads := <[path := data]> (uploads w);
                               service := service w; audits := audits w |})
           else (Raise (OSError path), w).

(** [with open(path, "rb") as f: ...] *)
Definition read_file (path : string) : M W string :=
  fun w => match uploads w !! path with
           | Some bytes => (Return bytes, w)
           | None => (Raise (OSError path), w)
           end.

(** [os.remove(path)] *)
Definition os_remove (path : string) : M W unit :=
  fun w => match uploads w !! path with
           | Some _ => (Return tt, {| documents := documents w;
                                      uploads := base.delete path (uploads w);
                                      service := service w; audits := audits w |})
           | None => (Raise (OSError path), w)
           end.

(** Modelled from the spec: [crud.documents] ([private_gpt/users/crud]) is
    not among the sources.  [get_by_filename] gives the first row with the
    file name, [None] when there is none (and for a [None] name, since the
    column is not nullable). *)
Definition crud_documents_get_by_filename (db : PyVal) (name : option string)
  : M W (option Document) :=
  lift (as_session db) ;;;
  fun w => (Return (match name with
                    | Some n => find (fun d => String.eqb (row_filename d) n) (documents w)
                    | None => None
                    end), w).

Definition fresh_row_id (rows : list Document) : Z :=
  1 + foldr (fun d acc => Z.max (row_id d) acc) 0 rows.

(** Modelled from the spec: [crud.documents.create] inserts a row; the
    insert fails with an [IntegrityError] on a missing department
    ([nullable=False]) and on a file name already in the table
    ([unique=True]). *)
Definition crud_documents_create (db : PyVal) (obj_in : DocumentCreate)
  : M W Document :=
  lift (as_session db) ;;;
  fun w =>
    match dc_department_id obj_in with
    | None => (Raise (IntegrityError "department_id"), w)
    | Some dept =>
        if existsb (fun d => String.eqb (row_filename d) (dc_filename obj_in))
             (documents w)
        then (Raise (IntegrityError "filename"), w)
        else
          let row := {| row_id := fresh_row_id (documents w);
                        row_filename := dc_filename obj_in;
                        uploaded_by := dc_uploaded_by obj_in;
                        row_department_id := dept |} in
          (Return row, {| documents := (documents w ++ [row])%list;
                          uploads := uploads w; service := service w;
                          audits := audits w |})
    end.

(** Modelled from the spec: [crud.documents.remove] deletes the row with
    the id. *)
Definition crud_documents_remove (i : Z) : M W unit :=
  fun w => (Return tt, {| documents := filter (fun d => row_id d ≠ i) (documents w);
                          uploads := uploads w; service := service w;
                          audits := audits w |}).

(** Modelled from the spec: [deps.get_audit_logger] is not among the
    sources.  Calling the logger it returns writes one audit row; calling
    anything else is a [TypeError]. *)
Definition call_log_audit (log_audit : PyVal) (a : Audit) : M W unit :=
  match log_audit with
  | VAuditLogger =>
      fun w => (Return tt, {| documents := documents w; uploads := uploads w;
                              service := service w;
                              audits := (audits w ++ [a])%list |})
  | _ => raise (TypeError "object is not callable")
  end.

Definition ingest_response (docs : list IngestedDoc) : IngestResponse :=
  {| object := "list"; model := "private-gpt"; data := docs |}.

(** The first [def ingest_file] of the module (line 55), registered as
    POST /v1/ingest/file1. *)
Definition ingest_file_1 (file : UploadFile) : M W Response :=
  match filename file with
  | None => raise (HTTPException 400 "No file name provided" [])
  | Some name =>
      let upload_path := upload_path_of name in
      r <- try_except
             (write_file upload_path (file_bytes file) ;;;
              f <- read_file upload_path ;;
              ingested_documents <- on_service (ingest_bin_data name f) ;;
              ret (inr ingested_documents))
             Exception
             (fun e => ret (inl (RDict
                [("message",
                  "There was an error uploading the file(s)" +:+ nl +:+ " "
                  +:+ str_exn e)]))) ;;
      match r with
      | inl early => ret early
      | inr ingested_documents =>
          ret (RIngestResponse (ingest_response ingested_documents))
      end
  end.

(** POST /v1/ingest/text *)
Definition ingest_text_route (body : IngestTextBody) : M W IngestResponse :=
  if (String.length (file_name body) =? 0)%nat
  then raise (HTTPException 400 "No file name provided" [])
  else
    ingested_documents <- on_service (ingest_text (file_name body) (text body)) ;;
    ret (ingest_response ingested_documents).

(** GET /v1/ingest/list *)
Definition list_ingested_route : M W IngestResponse :=
  ingested_documents <- ask_service list_ingested ;;
  ret (ingest_response ingested_documents).

(** DELETE /v1/ingest/{doc_id} *)
Definition delete_ingested (doc : string) : M W unit :=
  on_service (delete doc).

Definition deleted_message (name : string) : string :=
  name +:+ "' successfully deleted.".

(** POST /v1/ingest/file/delete *)
Definition delete_file (delete_input : DeleteFilename) (current_user : User)
  : M W (list (string * string)) :=
  let name := del_filename delete_input in
  try_except
    (doc_ids <- ask_service (get_doc_ids_by_filename name) ;;
     if negb (nonempty doc_ids)
     then raise (HTTPException 404
                   ("No documents found with filename '" +:+ name +:+ "'") [])
     else
       for_each doc_ids (fun d => on_service (delete d)) ;;;
       try_except (os_remove (upload_path_of name)) (fun _ => true)
         (fun _ => ret tt) ;;;
       document <- crud_documents_get_by_filename VSession (Some name) ;;
       match document with
       | Some doc =>
           call_log_audit VAuditLogger
             {| audit_model := "Document"; audit_action := "delete";
                audit_details := [("status", "SUCCESS");
                                  ("message", deleted_message name)];
                audit_user_id := id current_user |} ;;;
           crud_documents_remove (row_id doc)
       | None => ret tt
       end ;;;
       ret [("status", "SUCCESS"); ("message", deleted_message name)])
    Exception
    (fun e => raise (HTTPException 500 "Internal Server Error" [])).

(** The second [def ingest_file] of the module (line 176), registered as
    POST /v1/ingest/file; from here on the module name [ingest_file] is
    bound to it. *)
Definition ingest_file (log_audit db file current_user : PyVal) : M W Response :=
  try_except
    (name <- lift (attr_filename file) ;;
     file_ingested <- crud_documents_get_by_filename db name ;;
     match file_ingested with
     | Some _ =>
         raise (HTTPException 409
                  "File already exists. Choose a different file." [])
     | None =>
         match name with
         | None => raise (HTTPException 400 "No file name provided" [])
         | Some fname =>
             try_except
               (uid <- lift (attr_id current_user) ;;
                dept <- lift (attr_department_id current_user) ;;
                let docs_in := {| dc_filename := fname; dc_uploaded_by := uid;
                                  dc_department_id := dept |} in
                crud_documents_create db docs_in ;;; ret tt)
               Exception
               (fun e => raise (HTTPException 500 "Unable to upload file." [])) ;;;
             let upload_path := upload_path_of fname in
             bytes <- lift (attr_file_read file) ;;
             write_file upload_path bytes ;;;
             f <- read_file upload_path ;;
             ingested_documents <- on_service (ingest_bin_data fname f) ;;
             _ <- lift (attr_fullname current_user) ;;
             let response := ingest_response ingested_documents in
             user_name <- lift (attr_fullname current_user) ;;
             uid <- lift (attr_id current_user) ;;
             call_log_audit log_audit
               {| audit_model := "Document"; audit_action := "create";
                  audit_details := [("status", "200"); ("filename", fname);
                                    ("user", user_name)];
                  audit_user_id := uid |} ;;;
             ret (RIngestResponse response)
         end
     end)
    Exception
    (fun e =>
       if is_HTTPException e then raise e
       else
         uid <- lift (attr_id current_user) ;;
         call_log_audit log_audit
           {| audit_model := "Document"; audit_action := "create";
              audit_details :=
                [("status", "500");
                 ("detail", "Internal Server Error: Unable to ingest file.")];
              audit_user_id := uid |} ;;;
         raise (HTTPException 500
                  "Internal Server Error: Unable to ingest file." [])).

(** POST /v1/ingest/file as FastAPI calls it: every parameter injected. *)
Definition ingest_file_route (file : UploadFile) (current_user : User)
  : M W Response :=
  ingest_file VAuditLogger VSession (VUploadFile file) (VUser current_user).

(** POST /v1/ingest (deprecated): [return ingest_file(request, file)].  The
    call goes through the module name [ingest_file], so it reaches the
    second definition with [file] in the place of [log_audit] and the
    declared defaults for [db], [file] and [current_user]. *)
Definition ingest (file : UploadFile) : M W Response :=
  ingest_file (VUploadFile file) VDepends VFile VSecurity.

(** The requests of the router, and the run of a list of them. *)
Inductive Request : Type :=
| PostIngest (file : UploadFile)
| PostIngestFile1 (file : UploadFile)
| PostIngestText (body : IngestTextBody)
| GetIngestList
| DeleteIngested (doc : string)
| PostIngestFileDelete (delete_input : DeleteFilename) (current_user : User)
| PostIngestFile (file : UploadFile) (current_user : User).

Definition handle (r : Request) (w : W) : W :=
  match r with
  | PostIngest file => snd (ingest file w)
  | PostIngestFile1 file => snd (ingest_file_1 file w)
  | PostIngestText body => snd (ingest_text_route body w)
  | GetIngestList => snd (list_ingested_route w)
  | DeleteIngested doc => snd (delete_ingested doc w)
  | PostIngestFileDelete d u => snd (delete_file d u w)
  | PostIngestFile file u => snd (ingest_file_route file u w)
  end.

Definition run (rs : list Request) (w : W) : W := foldl (fun w r => handle r w) w rs.

(** No two rows of the document table share a file name. *)
Definition unique_filenames (w : W) : Prop :=
  NoDup (map row_filename (documents w)).

(** [pathlib.Path(p).name]: the last component of a path. *)
Variable path_name : string -> string.

(** [common_ingest_logic].  [log_audit] is the local
    [Depends(deps.get_audit_logger)], a [Depends] object and not the logger
    FastAPI would have injected.  The source file is read through the handle
    opened first; when the upload path is that same file, opening it for
    writing empties it before it is read. *)
Definition common_ingest_logic (db : PyVal) (ocr_file : string)
    (current_user : User) : M W (list IngestedDoc) :=
  let log_audit := VDepends in
  try_except
    (original <- read_file ocr_file ;;
     let file_name := path_name ocr_file in
     let upload_path := upload_path_of file_name in
     file_ingested <- crud_documents_get_by_filename db (Some file_name) ;;
     match file_ingested with
     | Some _ =>
         raise (HTTPException 409
                  "File already exists. Choose a different file." [])
     | None =>
         let docs_in := {| dc_filename := file_name;
                           dc_uploaded_by := id current_user;
                           dc_department_id := department_id current_user |} in
         crud_documents_create db docs_in ;;;
         let bytes := if String.eqb upload_path ocr_file
                      then EmptyString else original in
         write_file upload_path bytes ;;;
         ingested_documents <- on_service (ingest_bin_data file_name bytes) ;;
         call_log_audit log_audit
           {| audit_model := "Document"; audit_action := "create";
              audit_details := [("status", "200");
                                ("message", "file uploaded successfully.")];
              audit_user_id := id current_user |} ;;;
         ret ingested_documents
     end)
    Exception
    (fun e =>
       if is_HTTPException e then raise e
       else
         call_log_audit log_audit
           {| audit_model := "Document"; audit_action := "create";
              audit_details :=
                [("status", "500");
                 ("detail", "Internal Server Error: Unable to ingest file.")];
              audit_user_id := id current_user |} ;;;
         raise (HTTPException 500
                  "Internal Server Error: Unable to ingest file." [])).
End Router.

(** An in-memory ingest service, to run the handlers on concrete requests:
    one document per ingested file, named after it; empty input is
    refused. *)
Definition MemService : Type := list IngestedDoc.

Definition mem_doc (name : string) : IngestedDoc :=
  {| doc_id := "doc:" +:+ name; doc_metadata := [("file_name", name)] |}.

Definition mem_ingest (name bytes : string) : M MemService (list IngestedDoc) :=
  fun s => if String.eqb bytes EmptyString
           then (Raise (RuntimeError "empty document"), s)
           else (Return [mem_doc name], (s ++ [mem_doc name])%list).

#[global] Instance mem_service : IngestService MemService := {|
  ingest_bin_data := mem_ingest;
  ingest_text := mem_ingest;
  list_ingested := fun s => Return s;
  delete := fun d s => (Return tt, filter (fun x => doc_id x ≠ d) s);
  get_doc_ids_by_filename := fun name s =>
    Return (map doc_id
              (filter (fun x => doc_metadata x = [("file_name", name)]) s));
|}.

End IngestRouter.

(** ** private_gpt/utils/ollama.py *)

Module Ollama.

(** A chunk of [client.pull(..., stream=True)]: [chunk.get("digest")],
    [chunk.get("completed", 0)] and [chunk.get("total")]. *)
Record Chunk : Type := {
  digest : option string;
  completed : Z;
  total : option Z;
}.

(** [bool(digest)] of an optional string. *)
Definition truthy (d : option string) : option string :=
  match d with
  | Some s => if String.eqb s EmptyString then None else Some s
  | None => None
  end.

Section ProcessStreaming.
(** [tqdm]: the bar, its counter [n], and the calls made on it. *)
Variable Bar : Type.
Variable create_progress_bar : string -> Z -> Bar.
Variable bar_n : Bar -> Z.
Variable bar_update : Bar -> Z -> Bar.
Variable bar_close : Bar -> Bar.
(** [bar.total = total; bar.n = n] *)
Variable bar_store : Bar -> Z -> Z -> Bar.

(** The locals of [process_streaming]. *)
Record Progress : Type := {
  progress_bars : gmap string Bar;
  queue : list string;
  current_digest : option string;
}.

Definition start : Progress :=
  {| progress_bars := ∅; queue := []; current_digest := None |}.

(** The first [if] of the loop body: a bar for a digest seen with progress
    for the first time; it is the current one when there is none, and
    otherwise waits in the queue. *)
Definition open_bar (d : string) (completed_size total_size : Z) (st : Progress)
  : Progress :=
  match progress_bars st !! d with
  | None =>
      if (0 <? completed_size)%Z then
        let bars := <[d := create_progress_bar d total_size]> (progress_bars st) in
        match current_digest st with
        | None => {| progress_bars := bars; queue := queue st;
                     current_digest := Some d |}
        | Some _ => {| progress_bars := bars; queue := queue st ++ [d];
                       current_digest := current_digest st |}
        end
      else st
  | Some _ => st
  end.

(** The second [if] of the loop body: the progress of a digest that has a
    bar. *)
Definition advance (d : string) (completed_size total_size : Z) (st : Progress)
  : Progress :=
  match progress_bars st !! d with
  | None => st
  | Some progress_bar =>
      let progress := completed_size - bar_n progress_bar in
      if (0 <? completed_size)%Z && (progress <=? total_size)%Z
         && negb (progress =? bar_n progress_bar)%Z
      then
        if bool_decide (Some d = current_digest st) then
          let updated := bar_update progress_bar progress in
          if (total_size <=? bar_n updated)%Z then
            let bars := <[d := bar_close updated]> (progress_bars st) in
            match queue st with
            | next :: rest => {| progress_bars := bars; queue := rest;
                                 current_digest := Some next |}
            | [] => {| progress_bars := bars; queue := [];
                       current_digest := None |}
            end
          else {| progress_bars := <[d := updated]> (progress_bars st);
                  queue := queue st; current_digest := current_digest st |}
        else {| progress_bars :=
                  <[d := bar_store progress_bar total_size completed_size]>
                    (progress_bars st);
                queue := queue st; current_digest := current_digest st |}
      else st
  end.

(** One turn of [for chunk in generator]. *)
Definition step (st : Progress) (chunk : Chunk) : Progress :=
  match truthy (digest chunk), total chunk with
  | Some d, Some total_size =>
      advance d (completed chunk) total_size
        (open_bar d (completed chunk) total_size st)
  | _, _ => st
  end.

Definition loop (chunks : list Chunk) : Progress := foldl step start chunks.

(** [process_streaming]: the bars it leaves, every one closed by the final
    loop. *)
Definition process_streaming (chunks : list Chunk) : gmap string Bar :=
  bar_close <$> progress_bars (loop chunks).
End ProcessStreaming.

(** The calls made on the [ollama.Client]. *)
Inductive ClientCall : Type :=
| CallList
| CallPull (model_name : string).

(** The client: what [client.list()] gives (the names of the installed
    models, or the exception it raises, a missing ["name"] included) and what
    [client.pull(name, stream=True)] streams (the chunks, then the exception
    that ends the stream, if any). *)
Record Client : Type := {
  list_models : result (list string);
  pull : string -> list Chunk * option exn;
}.

Definition call (c : ClientCall) : M (list ClientCall) unit :=
  modify (fun t => t ++ [c]).

(** [check_connection] *)
Definition check_connection (client : Client) : M (list ClientCall) bool :=
  try_except
    (call CallList ;;;
     _ <- lift (list_models client) ;;
     ret true)
    Exception
    (fun e => ret false).

(** [pull_model] *)
Definition pull_model (client : Client) (model_name : string) (raise_error : bool)
  : M (list ClientCall) unit :=
  try_except
    (call CallList ;;;
     installed_models <- lift (list_models client) ;;
     if negb (bool_decide (model_name ∈ installed_models)) then
       call (CallPull model_name) ;;;
       match snd (pull client model_name) with
       | Some e => raise e
       | None => ret tt
       end
     else ret tt)
    Exception
    (fun e => if raise_error then raise e else ret tt).

End Ollama.

(** ** Fixtures: concrete collaborators to run the handlers on *)

Module Sample.

(** A decoder that knows three tokens. *)
Definition jwt_decode (token key : string) (algorithms : list string)
  : option Deps.Payload :=
  if String.eqb token "good"
  then Some (<["id" := Deps.JInt 1]> (<["role" := Deps.JStr "admin"]> ∅))
  else if String.eqb token "noid"
  then Some (<["role" := Deps.JStr "admin"]> ∅)
  else if String.eqb token "guest"
  then Some (<["id" := Deps.JInt 1]> (<["role" := Deps.JStr "guest"]> ∅))
  else None.

(** Validation: the id must be an integer, the role a string when present. *)
Definition TokenPayload_of (payload : Deps.Payload) : option Deps.TokenPayload :=
  match payload !! "id" with
  | Some (Deps.JInt n) =>
      match payload !! "role" with
      | Some (Deps.JStr r) => Some {| Deps.id := n; Deps.role := Some r |}
      | Some Deps.JNull | None => Some {| Deps.id := n; Deps.role := None |}
      | Some _ => None
      end
  | _ => None
  end.

(** The user table: names by id. *)
Definition crud_user_get (db : list (Z * string)) (i : Z) : option string :=
  snd <$> find (fun row => (fst row =? i)%Z) db.

Definition users : list (Z * string) := [(1, "alice"); (2, "bob")].

Definition admin_only : Deps.SecurityScopes :=
  {| Deps.scopes := ["admin"; "super_admin"] |}.

(** An empty deployment, an administrator, and an upload. *)
Definition world0 : IngestRouter.World IngestRouter.MemService :=
  {| IngestRouter.documents := []; IngestRouter.uploads := ∅;
     IngestRouter.service := []; IngestRouter.audits := [] |}.

Definition admin : IngestRouter.User :=
  {| IngestRouter.id := 7; IngestRouter.fullname := "Ada";
     IngestRouter.department_id := Some 3 |}.

Definition report : IngestRouter.UploadFile :=
  {| IngestRouter.filename := Some "report.pdf";
     IngestRouter.file_bytes := "%PDF-1.7" |}.

Definition report_row : IngestRouter.Document :=
  {| IngestRouter.row_id := 1; IngestRouter.row_filename := "report.pdf";
     IngestRouter.uploaded_by := 7; IngestRouter.row_department_id := 3 |}.

Definition writable (path : string) : bool := true.

(** The deployment after the administrator has uploaded the report. *)
Definition world1 : IngestRouter.World IngestRouter.MemService :=
  snd (IngestRouter.ingest_file_route "uploads" writable report admin world0).

(** A service that knows one document per file name and refuses every
    write. *)
Inductive ReadOnly : Type := read_only.

#[global] Instance readonly_service : IngestRouter.IngestService ReadOnly := {|
  IngestRouter.ingest_bin_data := fun _ _ s => (Raise (RuntimeError "read-only"), s);
  IngestRouter.ingest_text := fun _ _ s => (Raise (RuntimeError "read-only"), s);
  IngestRouter.list_ingested := fun _ => Return [];
  IngestRouter.delete := fun _ s => (Raise (RuntimeError "read-only"), s);
  IngestRouter.get_doc_ids_by_filename := fun name _ => Return ["doc:" +:+ name];
|}.

Definition frozen : IngestRouter.World ReadOnly :=
  {| IngestRouter.documents := [report_row]; IngestRouter.uploads := ∅;
     IngestRouter.service := read_only; IngestRouter.audits := [] |}.

(** A user without a department, an upload without a name, and a deployment
    whose upload directory cannot be written. *)
Definition visitor : IngestRouter.User :=
  {| IngestRouter.id := 9; IngestRouter.fullname := "Vi";
     IngestRouter.department_id := None |}.

Definition unnamed : IngestRouter.UploadFile :=
  {| IngestRouter.filename := None; IngestRouter.file_bytes := "data" |}.

Definition read_only_dir (path : string) : bool := false.

(** A scanned file waiting outside the upload directory. *)
Definition scans : IngestRouter.World IngestRouter.MemService :=
  {| IngestRouter.documents := [];
     IngestRouter.uploads := <["/tmp/scan.txt" := "scanned text"]> ∅;
     IngestRouter.service := []; IngestRouter.audits := [] |}.

Definition scan_name (path : string) : string := "scan.txt".

End Sample.

(** ** Specifications, in the terms of the model *)

Module Spec.
Import Completions.

(** [out] is the event stream of the deltas [ds]: one event per delta, in
    order, then the terminating event, and nothing else. *)
Definition is_sse_stream (event : option string -> string)
    (ds : list (option string)) (out : list string) : Prop :=
  length out = Datatypes.S (length ds)
  ∧ (∀ (i : nat) (d : option string), ds !! i = Some d → out !! i = Some (event d))
  ∧ out !! length ds = Some ("data: [DONE]" +:+ nl +:+ nl)
  ∧ last out = Some ("data: [DONE]" +:+ nl +:+ nl).

(** The status code the client observes: 200 for a returned value, the code
    of an [HTTPException], and 500 for any other exception. *)
Definition observed_status {A} (r : result A) : Z :=
  match r with
  | Return _ => 200
  | Raise (HTTPException c _ _) => c
  | Raise _ => 500
  end.

(** The store holds no chat history with id [i] that belongs to [u]: the id
    does not exist, or the row is another user's. *)
Definition missing_or_foreign (db : ChatHistories.Table) (i : Z)
    (u : ChatHistories.User) : Prop :=
  ∀ ch : ChatHistories.ChatHistory,
    ch ∈ db → ChatHistories.conversation_id ch = i →
    ChatHistories.user_id ch ≠ ChatHistories.id u.

(** A handler either returns or raises HTTP 500 "Internal Server Error". *)
Definition returns_or_500 {A} (r : result A) : Prop :=
  is_Return r = true ∨ r = Raise (HTTPException 500 "Internal Server Error" []).

(** The outcome is an [HTTPException] with status code [c]. *)
Definition raises_http {A} (c : Z) (r : result A) : Prop :=
  ∃ (detail : string) (headers : list (string * string)),
    r = Raise (HTTPException c detail headers).

(** The role claim [r] satisfies the required scopes [scs]: nothing is
    required, or the role is present (not [None], not empty) and is one of
    the scopes. *)
Definition role_allows (scs : list string) (r : option string) : Prop :=
  scs = [] ∨ ∃ x : string, r = Some x ∧ x ≠ EmptyString ∧ x ∈ scs.

(** The payload has an ["id"] claim that is not [None]. *)
Definition has_id_claim (payload : Deps.Payload) : Prop :=
  ∃ v : Deps.Json, payload !! "id" = Some v ∧ v ≠ Deps.JNull.

(** The token entitles its bearer to act as [u]: it decodes and validates,
    has an id claim that names [u] in the database, and its role satisfies
    the required scopes. *)
Definition authorised {User Session : Type}
    (jwt_decode : string -> string -> list string -> option Deps.Payload)
    (JWT_SECRET_KEY ALGORITHM : string)
    (TokenPayload_of : Deps.Payload -> option Deps.TokenPayload)
    (crud_user_get : Session -> Z -> option User)
    (security_scopes : Deps.SecurityScopes) (token : string) (db : Session)
    (u : User) : Prop :=
  ∃ (payload : Deps.Payload) (td : Deps.TokenPayload),
    jwt_decode token JWT_SECRET_KEY [ALGORITHM] = Some payload
    ∧ has_id_claim payload
    ∧ TokenPayload_of payload = Some td
    ∧ crud_user_get db (Deps.id td) = Some u
    ∧ role_allows (Deps.scopes security_scopes) (Deps.role td).

(** What POST /v1/ingest/file/delete answers, and the audit row it writes. *)
Definition success_message (name : string) : list (string * string) :=
  [("status", "SUCCESS"); ("message", name +:+ "' successfully deleted.")].

Definition delete_audit (name : string) (u : IngestRouter.User) : IngestRouter.Audit :=
  {| IngestRouter.audit_model := "Document";
     IngestRouter.audit_action := "delete";
     IngestRouter.audit_details := success_message name;
     IngestRouter.audit_user_id := IngestRouter.id u |}.

(** The queue of [process_streaming] holds distinct digests that have a bar;
    the current digest has a bar and does not wait in the queue; and a digest
    waits only while another one is current. *)
Definition queue_discipline {Bar : Type} (st : Ollama.Progress Bar) : Prop :=
  NoDup (Ollama.queue Bar st)
  ∧ (∀ d : string, d ∈ Ollama.queue Bar st →
       is_Some (Ollama.progress_bars Bar st !! d))
  ∧ (∀ d : string, Ollama.current_digest Bar st = Some d →
       is_Some (Ollama.progress_bars Bar st !! d) ∧ d ∉ Ollama.queue Bar st)
  ∧ (Ollama.current_digest Bar st = None → Ollama.queue Bar st = []).

(** The digest a chunk reports progress for: it names a digest, gives a total
    and a positive completed size. *)
Definition reported (chunk : Ollama.Chunk) : option string :=
  match Ollama.digest chunk, Ollama.total chunk with
  | Some d, Some _ =>
      if bool_decide (d ≠ EmptyString ∧ 0 < Ollama.completed chunk)
      then Some d else None
  | _, _ => None
  end.

End Spec.

(** ** Completions: the event stream *)

Lemma to_openai_sse_stream_is_sse_stream
    (simple_json_delta : option string -> string)
    (gen : list Completions.CompletionResponse) :
  Spec.is_sse_stream
    (fun d => "data: " +:+ simple_json_delta d +:+ nl +:+ nl)
    (map Completions.delta gen)
    (Completions._to_openai_sse_stream simple_json_delta gen).
Proof.
  unfold Spec.is_sse_stream, Completions._to_openai_sse_stream.
  rewrite length_app, !length_map. simpl.
  repeat split.
  - lia.
  - intros i d Hd.
    rewrite list_lookup_fmap in Hd.
    destruct (gen !! i) as [r|] eqn:Hr; [|discriminate].
    simpl in Hd. injection Hd as <-.
    rewrite lookup_app_l.
    + rewrite list_lookup_fmap, Hr. reflexivity.
    + rewrite length_map. eapply lookup_lt_Some; eauto.
  - rewrite lookup_app_r by (rewrite length_map; lia).
    rewrite length_map, Nat.sub_diag. reflexivity.
  - apply last_snoc.
Qed.

(** Pulling the generator with [next()] until it stops gives the drained
    stream, whatever fuel is left over. *)
Lemma drain_to_openai_sse_stream
    (simple_json_delta : option string -> string)
    (gen : list Completions.CompletionResponse) (k : nat) :
  Completions.drain simple_json_delta (Datatypes.S (length gen) + k)
    (Completions.InLoop gen)
  = Completions._to_openai_sse_stream simple_json_delta gen.
Proof.
  unfold Completions._to_openai_sse_stream.
  induction gen as [|r gen IH]; simpl.
  - destruct k; reflexivity.
  - f_equal. exact IH.
Qed.

(** C1: every completion endpoint (POST /completions, GET /completions and
    POST / of src/api/main.py once [_lifespan] has loaded the model) answers
    with an event stream that has exactly one [data: <json delta>] event per
    delta of the LLM response generator, in the generator's order, followed by
    the single terminating [data: [DONE]] event as its last element. *)
Theorem completion_endpoints_stream_sse
    (simple_json_delta : option string -> string)
    (stream_complete llama : string -> list Completions.CompletionResponse)
    (llms : gmap string ApiMain.LlamaCPP) (prompt : string) :
  let event := fun d => "data: " +:+ simple_json_delta d +:+ nl +:+ nl in
  Spec.is_sse_stream event (map Completions.delta (stream_complete prompt))
    (Completions.body_iterator
       (Completions.completions simple_json_delta stream_complete prompt))
  ∧ Spec.is_sse_stream event (map Completions.delta (stream_complete prompt))
      (Completions.body_iterator
         (Completions.basic_completions simple_json_delta stream_complete prompt))
  ∧ ∃ body : list string,
      ApiMain.inference simple_json_delta (ApiMain._lifespan llama llms) prompt
      = Return {| Completions.body_iterator := body;
                  Completions.media_type := "text/event-stream" |}
      ∧ Spec.is_sse_stream event
          (map Completions.delta (llama (ApiMain.str_prefix 3900 prompt))) body.
Proof.
  intros event. split; [|split].
  - apply to_openai_sse_stream_is_sse_stream.
  - apply to_openai_sse_stream_is_sse_stream.
  - unfold ApiMain.inference, ApiMain._run_llm, ApiMain._lifespan.
    rewrite lookup_insert_eq. simpl.
    eexists. split; [reflexivity|].
    apply (to_openai_sse_stream_is_sse_stream simple_json_delta
             (llama (ApiMain.str_prefix 3900 prompt))).
Qed.

(** ** ChatService: what grounds the LLM call *)

Lemma index_last_snoc {A} (xs : list A) (x : A) :
  ChatService.index_last (xs ++ [x]) = Return x.
Proof. unfold ChatService.index_last. rewrite last_snoc. reflexivity. Qed.

Lemma slice_but_last_snoc {A} (xs : list A) (x : A) :
  ChatService.slice_but_last (xs ++ [x]) = xs.
Proof. unfold ChatService.slice_but_last. apply removelast_last. Qed.

(** C2: with truthy context files and the messages [history ++ [m]], both
    [stream_chat] and [chat] send exactly one request, to a chat engine whose
    retriever is restricted to [get_context_nodes context_files docstore];
    the query is the content of [m] (the empty string when it is [None]) and
    the chat history is [history].  When the context files are [None] or
    falsy, the only request is the LLM call on the messages as they are: no
    retrieval takes place. *)
Theorem chat_service_grounding
    (ContextFiles DocStore : Type) (truth : ContextFiles -> bool)
    (get_context_nodes : ContextFiles -> DocStore -> list string)
    (docstore : DocStore)
    (engine_stream_chat :
       ChatService.ContextChatEngine -> string -> list ChatService.ChatMessage
       -> list string)
    (engine_chat :
       ChatService.ContextChatEngine -> string -> list ChatService.ChatMessage
       -> string)
    (llm_stream_chat : list ChatService.ChatMessage -> list string)
    (llm_chat : list ChatService.ChatMessage -> option string)
    (history : list ChatService.ChatMessage) (m : ChatService.ChatMessage)
    (cf : ContextFiles)
    (messages : list ChatService.ChatMessage) (no_cf : option ContextFiles)
    (t : ChatService.Trace) :
  truth cf = true →
  ChatService.if_context_files ContextFiles truth no_cf = false →
  let engine :=
    {| ChatService.retriever :=
         {| ChatService.node_ids := get_context_nodes cf docstore |} |} in
  let query := default EmptyString (ChatService.content m) in
  ChatService.stream_chat ContextFiles truth DocStore get_context_nodes docstore
    engine_stream_chat engine_chat llm_stream_chat (history ++ [m]) (Some cf) t
  = (Return (engine_stream_chat engine query history),
     t ++ [ChatService.EngineStreamChat engine query history])
  ∧ ChatService.chat ContextFiles truth DocStore get_context_nodes docstore
      engine_stream_chat engine_chat llm_chat (history ++ [m]) (Some cf) t
    = (Return (engine_chat engine query history),
       t ++ [ChatService.EngineChat engine query history])
  ∧ ChatService.stream_chat ContextFiles truth DocStore get_context_nodes docstore
      engine_stream_chat engine_chat llm_stream_chat messages no_cf t
    = (Return (llm_stream_chat messages), t ++ [ChatService.LlmStreamChat messages])
  ∧ ChatService.chat ContextFiles truth DocStore get_context_nodes docstore
      engine_stream_chat engine_chat llm_chat messages no_cf t
    = (Return (default EmptyString (llm_chat messages)),
       t ++ [ChatService.LlmChat messages]).
Proof.
  intros Hcf Hno engine query.
  unfold ChatService.stream_chat, ChatService.chat.
  rewrite Hcf.
  unfold bind, lift, ChatService._chat_with_contex, ChatService.record, modify, ret, bind.
  rewrite !index_last_snoc, !slice_but_last_snoc.
  subst engine query.
  split; [|split; [|split]].
  - destruct (ChatService.content m); reflexivity.
  - destruct (ChatService.content m); reflexivity.
  - destruct no_cf as [c|]; simpl in Hno; [rewrite Hno|];
      reflexivity.
  - destruct no_cf as [c|]; simpl in Hno; [rewrite Hno|];
      destruct (llm_chat messages); reflexivity.
Qed.

(** A run of the theorem: context files as a list of names, truthy when
    non-empty; two messages, the last one without content. *)
Lemma chat_service_grounding_witness :
  let user := {| ChatService.role := "user"; ChatService.content := Some "hi" |} in
  let last_m := {| ChatService.role := "user"; ChatService.content := None |} in
  let engine :=
    {| ChatService.retriever := {| ChatService.node_ids := ["n:a.pdf"] |} |} in
  ChatService.stream_chat (list string) Deps.nonempty unit
    (fun cf _ => map (String.append "n:") cf) tt
    (fun _ q _ => [q; "tok"]) (fun _ q _ => q) (fun _ => ["plain"])
    ([user] ++ [last_m]) (Some ["a.pdf"]) []
  = (Return [EmptyString; "tok"],
     [ChatService.EngineStreamChat engine EmptyString [user]]).
Proof.
  intros user last_m engine.
  exact (proj1 (chat_service_grounding (list string) unit Deps.nonempty
                  (fun cf _ => map (String.append "n:") cf) tt
                  (fun _ q _ => [q; "tok"]) (fun _ q _ => q)
                  (fun _ => ["plain"]) (fun _ => None)
                  [user] last_m ["a.pdf"] [user] (Some [])
                  [] eq_refl eq_refl)).
Defined.

(** ** Chat histories: tenant isolation and the catch-all handler *)

Lemma find_has_id_elem (db : ChatHistories.Table) (i : Z) (ch : ChatHistories.ChatHistory) :
  find (ChatHistories.has_id i) db = Some ch →
  ch ∈ db ∧ ChatHistories.conversation_id ch = i.
Proof.
  intros Hf. split.
  - apply list_elem_of_In. eapply find_some; eauto.
  - apply find_some in Hf as [_ Hid]. unfold ChatHistories.has_id in Hid. lia.
Qed.

Lemma foreign_of_missing_or_foreign (db : ChatHistories.Table) (i : Z)
    (u : ChatHistories.User) (ch : ChatHistories.ChatHistory) :
  Spec.missing_or_foreign db i u →
  find (ChatHistories.has_id i) db = Some ch →
  ChatHistories.foreign ch u = true.
Proof.
  intros Hmf Hf. apply find_has_id_elem in Hf as [Hin Hid].
  unfold ChatHistories.foreign. specialize (Hmf ch Hin Hid).
  apply negb_true_iff, Z.eqb_neq. exact Hmf.
Qed.

(** C3: listing gives only rows of the store that belong to the
    authenticated user, and leaves the store as it is; reading, updating or
    deleting a chat history whose id is missing or foreign raises an
    [HTTPException], returns nothing, and leaves the store as it is. *)
Theorem chat_histories_tenant_isolated
    (db : ChatHistories.Table) (u : ChatHistories.User) (skip limit i : Z)
    (upd : ChatHistories.ChatUpdate) (del : ChatHistories.ChatDelete) :
  Spec.missing_or_foreign db i u →
  ChatHistories.upd_conversation_id upd = i →
  ChatHistories.del_id del = i →
  (∃ rows : list ChatHistories.ChatHistory,
      ChatHistories.list_chat_histories skip limit u db = (Return rows, db)
      ∧ Forall (fun c => c ∈ db ∧ ChatHistories.user_id c = ChatHistories.id u) rows)
  ∧ (∃ e : exn,
       is_HTTPException e = true
       ∧ ChatHistories.read_chat_history i u db = (Raise e, db)
       ∧ ChatHistories.conversation upd u db = (Raise e, db)
       ∧ ChatHistories.delete_chat_history del u db = (Raise e, db)).
Proof.
  intros Hmf Hupd Hdel. split.
  - eexists. split; [reflexivity|].
    apply Forall_forall. intros c Hc.
    apply subseteq_take, subseteq_drop in Hc.
    apply list_elem_of_filter in Hc as [Hu Hin]. split; assumption.
  - exists ChatHistories.internal_server_error. split; [reflexivity|].
    unfold ChatHistories.read_chat_history, ChatHistories.conversation,
      ChatHistories.delete_chat_history, try_except, bind.
    cbn. unfold ChatHistories.table_get.
    rewrite Hupd, Hdel.
    destruct (find (ChatHistories.has_id i) db) as [ch|] eqn:Hf.
    + rewrite (foreign_of_missing_or_foreign db i u ch Hmf Hf).
      repeat split.
    + repeat split.
Qed.

(** A store with one chat history of user 1; user 2 asks for it. *)
Lemma chat_histories_tenant_isolated_witness :
  let row := {| ChatHistories.conversation_id := 5; ChatHistories.user_id := 1;
                ChatHistories.title := "t"; ChatHistories.chat_items := ["hello"] |} in
  ∃ e : exn,
    is_HTTPException e = true
    ∧ ChatHistories.read_chat_history 5 {| ChatHistories.id := 2 |} [row]
      = (Raise e, [row])
    ∧ ChatHistories.conversation
        {| ChatHistories.upd_conversation_id := 5; ChatHistories.upd_message := "x" |}
        {| ChatHistories.id := 2 |} [row]
      = (Raise e, [row])
    ∧ ChatHistories.delete_chat_history {| ChatHistories.del_id := 5 |}
        {| ChatHistories.id := 2 |} [row]
      = (Raise e, [row]).
Proof.
  intros row.
  refine (proj2 (chat_histories_tenant_isolated [row] {| ChatHistories.id := 2 |}
                   0 100 5
                   {| ChatHistories.upd_conversation_id := 5;
                      ChatHistories.upd_message := "x" |}
                   {| ChatHistories.del_id := 5 |} _ eq_refl eq_refl)).
  intros ch Hin _. apply list_elem_of_singleton in Hin. subst ch. simpl. lia.
Defined.

(** C9: whatever [crud.chat] does (return, write or raise), the handlers
    that read, update and delete a chat history either return or raise HTTP
    500 "Internal Server Error": the 404 raised inside the [try] for a
    missing or foreign chat history is caught by [except Exception] like any
    other failure, so the status the client observes is 200 or 500, never
    404.  On the empty table, reading any id gives that 500. *)
Theorem chat_history_failures_become_500 {DB : Type}
    (crud : ChatHistories.ChatCrud DB)
    (db : DB) (u : ChatHistories.User) (i : Z)
    (upd : ChatHistories.ChatUpdate) (del : ChatHistories.ChatDelete) :
  let read := fst (ChatHistories.read_chat_history i u db) in
  let update := fst (ChatHistories.conversation upd u db) in
  let deletion := fst (ChatHistories.delete_chat_history del u db) in
  Spec.returns_or_500 read ∧ Spec.returns_or_500 update
  ∧ Spec.returns_or_500 deletion
  ∧ Spec.observed_status read ≠ 404
  ∧ Spec.observed_status update ≠ 404
  ∧ Spec.observed_status deletion ≠ 404
  ∧ ChatHistories.read_chat_history (H := ChatHistories.table_crud) i u []
    = (Raise (HTTPException 500 "Internal Server Error" []), []).
Proof.
  unfold Spec.returns_or_500, ChatHistories.read_chat_history,
    ChatHistories.conversation, ChatHistories.delete_chat_history, try_except,
    bind.
  cbn zeta.
  destruct (ChatHistories.crud_chat_get_by_id i db) as [[[c1|]|e1] db1];
  destruct (ChatHistories.crud_chat_get_by_id
              (ChatHistories.upd_conversation_id upd) db) as [[[c2|]|e2] db2];
  destruct (ChatHistories.crud_chat_get (ChatHistories.del_id del) db)
    as [[[c3|]|e3] db3];
  try destruct (ChatHistories.foreign c1 u);
  try destruct (ChatHistories.foreign c2 u);
  try destruct (ChatHistories.foreign c3 u);
  try destruct (ChatHistories.crud_chat_update_messages c2 upd db2)
    as [[r2|e2'] db2'];
  try destruct (ChatHistories.crud_chat_remove (ChatHistories.del_id del) db3)
    as [[r3|e3'] db3'];
  cbn; repeat split; auto; discriminate.
Qed.

(** ** get_current_user *)

Lemma payload_get_None (payload : Deps.Payload) (key : string) :
  Deps.payload_get payload key = None ↔
  ¬ ∃ v : Deps.Json, payload !! key = Some v ∧ v ≠ Deps.JNull.
Proof.
  unfold Deps.payload_get.
  destruct (payload !! key) as [[]|]; split; intros Hx;
    try discriminate; try reflexivity.
  - intros (v & Hv & Hn). injection Hv as <-. congruence.
  - exfalso. apply Hx. eexists. split; [reflexivity | discriminate].
  - exfalso. apply Hx. eexists. split; [reflexivity | discriminate].
  - exfalso. apply Hx. eexists. split; [reflexivity | discriminate].
  - intros (v & Hv & _). discriminate.
Qed.

Lemma classic_has_id (payload : Deps.Payload) :
  Spec.has_id_claim payload ∨ ¬ Spec.has_id_claim payload.
Proof.
  unfold Spec.has_id_claim.
  destruct (payload !! "id") as [[]|].
  - right. intros (v & Hv & Hn). injection Hv as <-. congruence.
  - left. eexists. split; [reflexivity | discriminate].
  - left. eexists. split; [reflexivity | discriminate].
  - left. eexists. split; [reflexivity | discriminate].
  - right. intros (v & Hv & _). discriminate.
Qed.

Lemma role_checks_pass (scs : list string) (r : option string) :
  (Deps.nonempty scs && negb (Deps.truthy_str r) = false
   ∧ Deps.nonempty scs && Deps.role_not_in r scs = false)
  ↔ Spec.role_allows scs r.
Proof.
  unfold Spec.role_allows.
  destruct scs as [|s scs]; simpl.
  - split; [intros _; left; reflexivity | intros _; split; reflexivity].
  - destruct r as [x|]; simpl.
    + rewrite negb_involutive, !negb_false_iff, bool_decide_eq_true.
      rewrite String.eqb_neq. split.
      * intros [Hne Hin]. right. exists x. repeat split; assumption.
      * intros [Hnil | (y & Hy & Hne & Hin)]; [discriminate|].
        injection Hy as <-. split; assumption.
    + split.
      * intros [Habs _]. discriminate.
      * intros [Hnil | (y & Hy & _)]; discriminate.
Qed.

Section GetCurrentUserFacts.
Context {User Session : Type}.
Variable jwt_decode : string -> string -> list string -> option Deps.Payload.
Variables JWT_SECRET_KEY ALGORITHM : string.
Variable TokenPayload_of : Deps.Payload -> option Deps.TokenPayload.
Variable crud_user_get : Session -> Z -> option User.

(** The handler, case by case, in the order in which it decides. *)
Lemma get_current_user_cases (security_scopes : Deps.SecurityScopes)
    (token : string) (db : Session) :
  Deps.get_current_user User Session jwt_decode JWT_SECRET_KEY ALGORITHM
    TokenPayload_of crud_user_get security_scopes token db =
  (match jwt_decode token JWT_SECRET_KEY [ALGORITHM] with
   | None => Raise Deps.could_not_validate
   | Some payload =>
       match Deps.payload_get payload "id" with
       | None => Raise (Deps.credentials_exception security_scopes)
       | Some _ =>
           match TokenPayload_of payload with
           | None => Raise Deps.could_not_validate
           | Some td =>
               match crud_user_get db (Deps.id td) with
               | None => Raise (Deps.credentials_exception security_scopes)
               | Some user =>
                   if Deps.nonempty (Deps.scopes security_scopes)
                      && negb (Deps.truthy_str (Deps.role td))
                   then Raise (Deps.not_enough_permissions security_scopes)
                   else if Deps.nonempty (Deps.scopes security_scopes)
                           && Deps.role_not_in (Deps.role td)
                                (Deps.scopes security_scopes)
                   then Raise (Deps.not_enough_permissions security_scopes)
                   else Return user
               end
           end
       end
   end, db).
Proof.
  unfold Deps.get_current_user, bind, try_except, lift, get, raise, ret.
  destruct (jwt_decode token JWT_SECRET_KEY [ALGORITHM]) as [payload|];
    [|reflexivity].
  destruct (Deps.payload_get payload "id"); [|reflexivity].
  destruct (TokenPayload_of payload) as [td|]; [|reflexivity].
  destruct (crud_user_get db (Deps.id td)) as [user|]; [|reflexivity].
  destruct (Deps.nonempty (Deps.scopes security_scopes)
            && negb (Deps.truthy_str (Deps.role td))); [reflexivity|].
  destruct (Deps.nonempty (Deps.scopes security_scopes)
            && Deps.role_not_in (Deps.role td) (Deps.scopes security_scopes));
    reflexivity.
Qed.

Lemma get_current_user_returns_iff (security_scopes : Deps.SecurityScopes)
    (token : string) (db : Session) (u : User) :
  fst (Deps.get_current_user User Session jwt_decode JWT_SECRET_KEY ALGORITHM
    TokenPayload_of crud_user_get security_scopes token db) = Return u ↔
  Spec.authorised jwt_decode JWT_SECRET_KEY ALGORITHM TokenPayload_of
    crud_user_get security_scopes token db u.
Proof.
  rewrite get_current_user_cases. unfold Spec.authorised. cbn [fst].
  destruct (jwt_decode token JWT_SECRET_KEY [ALGORITHM]) as [payload|] eqn:Hd.
  2:{ split; [discriminate | intros (p & td & Hp & _); discriminate]. }
  destruct (Deps.payload_get payload "id") as [v|] eqn:Hid.
  2:{ split; [discriminate|]. intros (p & td & Hp & Hc & _).
      injection Hp as <-. apply payload_get_None in Hid. contradiction. }
  assert (Hclaim : Spec.has_id_claim payload).
  { unfold Spec.has_id_claim. unfold Deps.payload_get in Hid.
    destruct (payload !! "id") as [[]|]; try discriminate;
      eexists; (split; [reflexivity | discriminate]). }
  destruct (TokenPayload_of payload) as [td|] eqn:Htd.
  2:{ split; [discriminate|]. intros (p & td & Hp & _ & Ht & _).
      injection Hp as <-. congruence. }
  destruct (crud_user_get db (Deps.id td)) as [user|] eqn:Hu.
  2:{ split; [discriminate|]. intros (p & td' & Hp & _ & Ht & Hg & _).
      injection Hp as <-. rewrite Htd in Ht. injection Ht as <-. congruence. }
  pose proof (role_checks_pass (Deps.scopes security_scopes) (Deps.role td)) as Hr.
  destruct (Deps.nonempty (Deps.scopes security_scopes)
            && negb (Deps.truthy_str (Deps.role td))) eqn:H1.
  { split; [discriminate|]. intros (p & td' & Hp & _ & Ht & _ & Hal).
    injection Hp as <-. rewrite Htd in Ht. injection Ht as <-.
    apply Hr in Hal as [Hx _]. discriminate. }
  destruct (Deps.nonempty (Deps.scopes security_scopes)
            && Deps.role_not_in (Deps.role td) (Deps.scopes security_scopes)) eqn:H2.
  { split; [discriminate|]. intros (p & td' & Hp & _ & Ht & _ & Hal).
    injection Hp as <-. rewrite Htd in Ht. injection Ht as <-.
    apply Hr in Hal as [_ Hx]. discriminate. }
  split.
  - intros Heq. injection Heq as <-. exists payload, td.
    repeat split; try assumption. apply Hr. split; reflexivity.
  - intros (p & td' & Hp & _ & Ht & Hg & _).
    injection Hp as <-. rewrite Htd in Ht. injection Ht as <-. congruence.
Qed.

End GetCurrentUserFacts.

(** C4: [get_current_user] returns [u] exactly when the token decodes and
    validates, carries a non-[None] id claim that names the user [u] of the
    database, and, when scopes are required, carries a role that is present
    and is one of them.  Otherwise it raises an [HTTPException]: 403 when the
    token does not decode or does not validate, 401 when the id claim is
    missing, when the user is unknown and when the role does not satisfy the
    scopes.  The database is left as it is. *)
Theorem get_current_user_authorises {User Session : Type}
    (jwt_decode : string -> string -> list string -> option Deps.Payload)
    (JWT_SECRET_KEY ALGORITHM : string)
    (TokenPayload_of : Deps.Payload -> option Deps.TokenPayload)
    (crud_user_get : Session -> Z -> option User)
    (security_scopes : Deps.SecurityScopes) (token : string) (db : Session) :
  let r := Deps.get_current_user User Session jwt_decode JWT_SECRET_KEY ALGORITHM
             TokenPayload_of crud_user_get security_scopes token db in
  let decoded := jwt_decode token JWT_SECRET_KEY [ALGORITHM] in
  snd r = db
  ∧ (∀ u : User,
       fst r = Return u ↔
       Spec.authorised jwt_decode JWT_SECRET_KEY ALGORITHM TokenPayload_of
         crud_user_get security_scopes token db u)
  ∧ ((∃ u : User, fst r = Return u)
     ∨ Spec.raises_http 401 (fst r) ∨ Spec.raises_http 403 (fst r))
  ∧ (decoded = None → Spec.raises_http 403 (fst r))
  ∧ (∀ p, decoded = Some p → ¬ Spec.has_id_claim p → Spec.raises_http 401 (fst r))
  ∧ (∀ p, decoded = Some p → Spec.has_id_claim p → TokenPayload_of p = None →
          Spec.raises_http 403 (fst r))
  ∧ (∀ p td, decoded = Some p → Spec.has_id_claim p →
             TokenPayload_of p = Some td →
             crud_user_get db (Deps.id td) = None →
             Spec.raises_http 401 (fst r))
  ∧ (∀ p td u, decoded = Some p → Spec.has_id_claim p →
               TokenPayload_of p = Some td →
               crud_user_get db (Deps.id td) = Some u →
               ¬ Spec.role_allows (Deps.scopes security_scopes) (Deps.role td) →
               Spec.raises_http 401 (fst r)).
Proof.
  intros r decoded.
  assert (Hid : ∀ p, Spec.has_id_claim p → ∃ v, Deps.payload_get p "id" = Some v).
  { intros p Hc. destruct (Deps.payload_get p "id") eqn:E; [eauto|].
    apply payload_get_None in E. contradiction. }
  assert (H401 : ∀ d h, Spec.raises_http 401 (@Raise User (HTTPException 401 d h))).
  { intros d h. exists d, h. reflexivity. }
  assert (H403 : Spec.raises_http 403 (@Raise User Deps.could_not_validate)).
  { eexists _, _. reflexivity. }
  split; [|split; [|split; [|split; [|split; [|split; [|split]]]]]].
  - subst r. rewrite get_current_user_cases. reflexivity.
  - intros u. apply get_current_user_returns_iff.
  - subst r. rewrite get_current_user_cases. cbn [fst].
    destruct (jwt_decode token JWT_SECRET_KEY [ALGORITHM]) as [p|]; [|auto].
    destruct (Deps.payload_get p "id");
      [|right; left; apply H401].
    destruct (TokenPayload_of p) as [td|]; [|auto].
    destruct (crud_user_get db (Deps.id td)) as [u|];
      [|right; left; apply H401].
    destruct (Deps.nonempty (Deps.scopes security_scopes)
              && negb (Deps.truthy_str (Deps.role td)));
      [right; left; apply H401|].
    destruct (Deps.nonempty (Deps.scopes security_scopes)
              && Deps.role_not_in (Deps.role td) (Deps.scopes security_scopes));
      [right; left; apply H401|].
    left. eauto.
  - intros Hd. subst r decoded. rewrite get_current_user_cases, Hd. apply H403.
  - intros p Hd Hn. subst r decoded. rewrite get_current_user_cases, Hd. cbn [fst].
    destruct (Deps.payload_get p "id") eqn:E; [|apply H401].
    exfalso. apply Hn. destruct (payload_get_None p "id") as [_ Hback].
    destruct (classic_has_id p) as [Hy|Hno]; [exact Hy|].
    rewrite (Hback Hno) in E. discriminate.
  - intros p Hd Hc Hv. subst r decoded. rewrite get_current_user_cases, Hd.
    destruct (Hid p Hc) as [v ->]. rewrite Hv. apply H403.
  - intros p td Hd Hc Hv Hu. subst r decoded. rewrite get_current_user_cases, Hd.
    destruct (Hid p Hc) as [v ->]. rewrite Hv, Hu. apply H401.
  - intros p td u Hd Hc Hv Hu Hr. subst r decoded.
    rewrite get_current_user_cases, Hd.
    destruct (Hid p Hc) as [v ->]. rewrite Hv, Hu. cbn [fst].
    destruct (Deps.nonempty (Deps.scopes security_scopes)
              && negb (Deps.truthy_str (Deps.role td))) eqn:H1; [apply H401|].
    destruct (Deps.nonempty (Deps.scopes security_scopes)
              && Deps.role_not_in (Deps.role td) (Deps.scopes security_scopes))
      eqn:H2; [apply H401|].
    exfalso. apply Hr. apply role_checks_pass. split; assumption.
Qed.

(** The admin token is let in as alice, an unknown token is refused with 403,
    a token without id and a guest token with 401. *)
Lemma get_current_user_authorises_witness :
  let run := Deps.get_current_user string (list (Z * string)) Sample.jwt_decode
               "secret" "HS256" Sample.TokenPayload_of Sample.crud_user_get
               Sample.admin_only in
  fst (run "good" Sample.users) = Return "alice"
  ∧ Spec.raises_http 403 (fst (run "forged" Sample.users))
  ∧ Spec.raises_http 401 (fst (run "noid" Sample.users))
  ∧ Spec.raises_http 401 (fst (run "guest" Sample.users)).
Proof.
  intros run.
  pose (thm := get_current_user_authorises Sample.jwt_decode "secret" "HS256"
                 Sample.TokenPayload_of Sample.crud_user_get Sample.admin_only).
  split; [|split; [|split]].
  - apply (proj1 (proj2 (thm "good" Sample.users))).
    exists (<["id" := Deps.JInt 1]> (<["role" := Deps.JStr "admin"]> ∅)),
      {| Deps.id := 1; Deps.role := Some "admin" |}.
    split; [reflexivity|]. split.
    { exists (Deps.JInt 1). split; [reflexivity | discriminate]. }
    split; [reflexivity|]. split; [reflexivity|].
    right. exists "admin". split; [reflexivity|]. split; [discriminate|].
    apply list_elem_of_here.
  - apply (proj1 (proj2 (proj2 (proj2 (thm "forged" Sample.users))))).
    reflexivity.
  - apply (proj1 (proj2 (proj2 (proj2 (proj2 (thm "noid" Sample.users)))))
             (<["role" := Deps.JStr "admin"]> ∅)).
    + reflexivity.
    + intros (v & Hv & _). vm_compute in Hv. discriminate.
  - apply (proj2 (proj2 (proj2 (proj2 (proj2 (proj2 (proj2
             (thm "guest" Sample.users)))))))
             (<["id" := Deps.JInt 1]> (<["role" := Deps.JStr "guest"]> ∅))
             {| Deps.id := 1; Deps.role := Some "guest" |} "alice").
    + reflexivity.
    + exists (Deps.JInt 1). split; [reflexivity | discriminate].
    + reflexivity.
    + reflexivity.
    + intros [Hnil | (x & Hx & _ & Hin)]; [discriminate|].
      injection Hx as <-.
      apply list_elem_of_In in Hin. simpl in Hin.
      destruct Hin as [H1 | [H2 | []]]; discriminate.
Defined.

(** ** The ingestion router *)

Section IngestFacts.
Import IngestRouter.
Context {S : Type} `{IngestService S}.
Variable UPLOAD_DIR : string.
Variable can_write : string -> bool.

(** Symbolic execution of a handler: unfold the monad and the helpers. *)
Ltac run_router :=
  unfold ingest, ingest_file_route, ingest_file, ingest_file_1, ingest_text_route,
    list_ingested_route, delete_ingested, delete_file,
    crud_documents_get_by_filename, crud_documents_create,
    crud_documents_remove, call_log_audit, write_file, read_file, os_remove,
    on_service, ask_service, attr_filename, attr_id, attr_department_id,
    attr_file_read, attr_fullname, as_session, try_except, bind, lift, raise, ret
    in *;
  cbn in *.

Lemma world_eta (w : World S) :
  {| documents := documents w; uploads := uploads w; service := service w;
     audits := audits w |} = w.
Proof. destruct w; reflexivity. Qed.

(** The loop [for doc_id in doc_ids: service.delete(doc_id)] only touches the
    storage context of the service. *)
Lemma for_each_delete (doc_ids : list string) (w : World S) :
  for_each doc_ids (fun d => on_service (delete d)) w
  = (fst (for_each doc_ids delete (service w)),
     {| documents := documents w; uploads := uploads w;
        service := snd (for_each doc_ids delete (service w));
        audits := audits w |}).
Proof.
  revert w. induction doc_ids as [|d ds IH]; intros w.
  - cbn. rewrite world_eta. reflexivity.
  - cbn [for_each]. unfold bind, on_service.
    destruct (delete d (service w)) as [[[]|e] s1]; cbn.
    + rewrite IH. reflexivity.
    + reflexivity.
Qed.

Lemma find_none_existsb {A} (p : A -> bool) (l : list A) :
  find p l = None → existsb p l = false.
Proof.
  induction l as [|x l IH]; cbn; [reflexivity|].
  destruct (p x); [discriminate | exact IH].
Qed.

Lemma find_filename_elem (name : string) (rows : list Document) (doc : Document) :
  find (fun d => String.eqb (row_filename d) name) rows = Some doc →
  doc ∈ rows ∧ row_filename doc = name.
Proof.
  intros Hf. apply find_some in Hf as [Hin Heq]. split.
  - apply list_elem_of_In. exact Hin.
  - apply String.eqb_eq. exact Heq.
Qed.

Lemma find_filename_none (name : string) (rows : list Document) :
  find (fun d => String.eqb (row_filename d) name) rows = None →
  name ∉ map row_filename rows.
Proof.
  intros Hf Hin. apply list_elem_of_In, in_map_iff in Hin as (d & Hd & Hin).
  pose proof (find_none _ _ Hf d Hin) as Hne. cbn in Hne.
  apply String.eqb_neq in Hne. contradiction.
Qed.

Lemma find_filename_some (name : string) (rows : list Document) (doc : Document) :
  doc ∈ rows → row_filename doc = name →
  ∃ found, find (fun d => String.eqb (row_filename d) name) rows = Some found.
Proof.
  intros Hin Hname.
  destruct (find (fun d => String.eqb (row_filename d) name) rows) as [f|] eqn:Hf;
    [eauto|].
  exfalso. apply (find_filename_none name rows Hf).
  rewrite <- Hname. apply list_elem_of_In, in_map, list_elem_of_In. exact Hin.
Qed.

(** C10 (the defect): POST /v1/ingest never gets as far as writing or
    ingesting.  [ingest] calls the module name [ingest_file], which by then
    is the handler of POST /v1/ingest/file: the upload lands in [log_audit],
    [file] is the [File(...)] default and has no [filename], and the
    [except Exception] branch then fails on [current_user.id].  The request
    ends in an [AttributeError], whatever the file, with nothing written:
    it hands back neither a dictionary with a [message] nor an
    [IngestResponse]. *)
Theorem deprecated_ingest_always_raises (file : UploadFile) (w : World S) :
  ingest UPLOAD_DIR can_write file w = (Raise (AttributeError "id"), w)
  ∧ is_Return (fst (ingest UPLOAD_DIR can_write file w)) = false
  ∧ Spec.observed_status (fst (ingest UPLOAD_DIR can_write file w)) = 500.
Proof.
  assert (Hfile : attr_filename VFile = Raise (AttributeError "filename"))
    by reflexivity.
  assert (Huser : attr_id VSecurity = Raise (AttributeError "id"))
    by reflexivity.
  assert (Hrun : ingest UPLOAD_DIR can_write file w
                 = (Raise (AttributeError "id"), w)).
  { unfold ingest, ingest_file, try_except.
    unfold bind at 1, lift at 1. rewrite Hfile.
    cbn [Exception is_HTTPException].
    unfold bind at 1, lift at 1. rewrite Huser. reflexivity. }
  rewrite Hrun. repeat split.
Qed.

(** POST /v1/ingest/file1, the first [ingest_file], does not raise on a
    failed write or a failed ingestion: it reports the error in a dictionary
    with the single key [message]; an [IngestResponse] is returned when both
    steps go through. *)
Lemma ingest_file1_outcomes (name bytes : string) (w : World S) :
  let file := {| filename := Some name; file_bytes := bytes |} in
  let path := upload_path_of UPLOAD_DIR name in
  let r := fst (ingest_file_1 UPLOAD_DIR can_write file w) in
  (can_write path = false →
   r = Return (RDict [("message", "There was an error uploading the file(s)"
                                   +:+ nl +:+ " " +:+ path)]))
  ∧ (∀ e s', can_write path = true →
       ingest_bin_data name bytes (service w) = (Raise e, s') →
       r = Return (RDict [("message", "There was an error uploading the file(s)"
                                       +:+ nl +:+ " " +:+ str_exn e)]))
  ∧ (∀ docs s', can_write path = true →
       ingest_bin_data name bytes (service w) = (Return docs, s') →
       r = Return (RIngestResponse
                     {| object := "list"; model := "private-gpt"; data := docs |})).
Proof.
  intros file path r. subst r file path. split; [|split].
  - intros Hw. run_router. rewrite Hw. reflexivity.
  - intros e s' Hw Hi. run_router. rewrite Hw. cbn.
    rewrite lookup_insert_eq. cbn. rewrite Hi. reflexivity.
  - intros docs s' Hw Hi. run_router. rewrite Hw. cbn.
    rewrite lookup_insert_eq. cbn. rewrite Hi. reflexivity.
Qed.

(** C7: POST /v1/ingest/text with an empty [file_name] raises HTTP 400 and
    leaves everything as it is; with a non-empty [file_name] the text is
    handed to the service and the documents it generates come back in an
    [IngestResponse] with [object = "list"] and [model = "private-gpt"]. *)
Theorem ingest_text_contract (unnamed body : IngestTextBody) (w : World S)
    (docs : list IngestedDoc) (s' : S) :
  file_name unnamed = EmptyString →
  file_name body ≠ EmptyString →
  ingest_text (file_name body) (text body) (service w) = (Return docs, s') →
  ingest_text_route unnamed w
  = (Raise (HTTPException 400 "No file name provided" []), w)
  ∧ ∃ w' : World S,
      ingest_text_route body w
      = (Return {| object := "list"; model := "private-gpt"; data := docs |}, w')
      ∧ service w' = s'
      ∧ documents w' = documents w ∧ uploads w' = uploads w
      ∧ audits w' = audits w.
Proof.
  intros Hempty Hname Hsvc. split.
  - unfold ingest_text_route. rewrite Hempty. reflexivity.
  - unfold ingest_text_route.
    destruct (file_name body) as [|c rest] eqn:Hn; [contradiction|].
    cbn [String.length Nat.eqb]. unfold bind, on_service.
    rewrite Hsvc. eexists. split; [reflexivity|]. cbn. repeat split.
Qed.

(** *** POST /v1/ingest/file/delete *)

(** The world a successful deletion leaves behind. *)
Lemma delete_file_success (d : DeleteFilename) (u : User) (w : World S)
    (doc_ids : list string) (s' : S) :
  get_doc_ids_by_filename (del_filename d) (service w) = Return doc_ids →
  doc_ids ≠ [] →
  for_each doc_ids delete (service w) = (Return tt, s') →
  let found := find (fun r => String.eqb (row_filename r) (del_filename d))
                 (documents w) in
  delete_file UPLOAD_DIR d u w
  = (Return (Spec.success_message (del_filename d)),
     {| documents := match found with
                     | Some doc => filter (fun r => row_id r ≠ row_id doc) (documents w)
                     | None => documents w
                     end;
        uploads := base.delete (upload_path_of UPLOAD_DIR (del_filename d)) (uploads w);
        service := s';
        audits := audits w ++ match found with
                              | Some _ => [Spec.delete_audit (del_filename d) u]
                              | None => []
                              end |}).
Proof.
  intros Hids Hne Hdel found. subst found.
  assert (Hnon : nonempty doc_ids = true)
    by (destruct doc_ids; [contradiction | reflexivity]).
  pose proof (for_each_delete doc_ids w) as Hfe. rewrite Hdel in Hfe.
  unfold delete_file. unfold try_except, bind at 1, ask_service.
  rewrite Hids, Hnon. cbn [negb]. unfold bind at 1. rewrite Hfe. cbn [fst snd].
  run_router.
  destruct (uploads w !! upload_path_of UPLOAD_DIR (del_filename d)) eqn:Hup; cbn.
  - destruct (find _ (documents w)); cbn; [reflexivity|].
    rewrite app_nil_r. reflexivity.
  - rewrite (delete_id _ _ Hup).
    destruct (find _ (documents w)); cbn; [reflexivity|].
    rewrite app_nil_r. reflexivity.
Qed.

(** Without a document id for the file name, the 404 of the handler is
    caught by its own [except Exception]: HTTP 500, nothing touched. *)
Lemma delete_file_no_documents (d : DeleteFilename) (u : User) (w : World S) :
  get_doc_ids_by_filename (del_filename d) (service w) = Return [] →
  delete_file UPLOAD_DIR d u w
  = (Raise (HTTPException 500 "Internal Server Error" []), w).
Proof.
  intros Hids. unfold delete_file, try_except, bind, ask_service.
  rewrite Hids. reflexivity.
Qed.

Lemma NoDup_map_eq {A B} (f : A -> B) (l : list A) (x y : A) :
  NoDup (map f l) → x ∈ l → y ∈ l → f x = f y → x = y.
Proof.
  induction l as [|a l IH]; intros Hnd Hx Hy Heq.
  - inversion Hx.
  - cbn in Hnd. apply NoDup_cons in Hnd as [Hnotin Hnd].
    apply elem_of_cons in Hx as [->|Hx]; apply elem_of_cons in Hy as [->|Hy].
    + reflexivity.
    + exfalso. apply Hnotin. rewrite Heq.
      apply list_elem_of_In, in_map, list_elem_of_In. exact Hy.
    + exfalso. apply Hnotin. rewrite <- Heq.
      apply list_elem_of_In, in_map, list_elem_of_In. exact Hx.
    + apply IH; assumption.
Qed.

(** C6: when the service knows no document id for the file name, the
    endpoint raises an [HTTPException] and leaves everything as it is.
    Otherwise, once [service.delete] has gone through for every document id
    of the file name, the endpoint returns the success message; the storage
    context is the one those deletions leave, the uploaded file is gone, and
    the row found for the file name is removed from the document table (no
    row with that name remains when names are unique). *)
Theorem delete_file_contract (d : DeleteFilename) (u : User) (v w : World S)
    (doc_ids : list string) (s' : S) :
  get_doc_ids_by_filename (del_filename d) (service v) = Return [] →
  get_doc_ids_by_filename (del_filename d) (service w) = Return doc_ids →
  doc_ids ≠ [] →
  for_each doc_ids delete (service w) = (Return tt, s') →
  (∃ e : exn, is_HTTPException e = true
              ∧ delete_file UPLOAD_DIR d u v = (Raise e, v))
  ∧ ∃ w' : World S,
      delete_file UPLOAD_DIR d u w
      = (Return [("status", "SUCCESS");
                 ("message", del_filename d +:+ "' successfully deleted.")], w')
      ∧ service w' = s'
      ∧ uploads w' !! (upload_path_of UPLOAD_DIR (del_filename d)) = None
      ∧ documents w' ⊆ documents w
      ∧ (∀ doc : Document,
           find (fun r => String.eqb (row_filename r) (del_filename d))
             (documents w) = Some doc →
           (doc ∉ documents w')
           ∧ documents w' = filter (fun r => row_id r ≠ row_id doc) (documents w))
      ∧ (unique_filenames w →
         ∀ r : Document, r ∈ documents w' → row_filename r ≠ del_filename d).
Proof.
  intros Hnone Hids Hne Hdel. split.
  - eexists. split; [|apply delete_file_no_documents; exact Hnone]. reflexivity.
  - eexists. split; [apply (delete_file_success d u w doc_ids s' Hids Hne Hdel)|].
    cbn [service uploads documents].
    split; [reflexivity|]. split; [apply lookup_delete_eq|].
    destruct (find (fun r => String.eqb (row_filename r) (del_filename d))
                (documents w)) as [doc|] eqn:Hf.
    + split; [apply list_subseteq_filter|]. split.
      * intros doc' Heq. injection Heq as <-. split; [|reflexivity].
        intros Hin. apply list_elem_of_filter in Hin as [Hid _]. congruence.
      * intros Huniq r Hin Hname.
        apply list_elem_of_filter in Hin as [Hid Hin].
        apply find_filename_elem in Hf as [Hdoc Hdname].
        apply Hid. f_equal.
        apply (NoDup_map_eq row_filename (documents w)); try assumption.
        congruence.
    + split; [reflexivity|]. split; [intros doc' Heq; discriminate|].
      intros _ r Hin Hname.
      apply (find_filename_none _ _ Hf).
      rewrite <- Hname. apply list_elem_of_In, in_map, list_elem_of_In. exact Hin.
Qed.

(** *** POST /v1/ingest/file *)

(** The branches of [ingest_file_route], in the order of the handler: the
    name is taken, no name, no department, then the write and the ingestion
    with their failures. *)
Ltac ingest_cases file u w :=
  destruct file as [[fname|] bytes]; run_router;
  [ destruct (find (fun d => String.eqb (row_filename d) fname) (documents w))
      eqn:Hf; cbn in *;
    [ | destruct (department_id u) eqn:Hd; cbn in *;
        [ rewrite (find_none_existsb _ _ Hf) in *; cbn in *;
          destruct (can_write (upload_path_of UPLOAD_DIR fname)) eqn:Hcw;
          cbn in *;
          [ rewrite lookup_insert_eq in *; cbn in *;
            destruct (ingest_bin_data fname bytes (service w))
              as [[docs|e] s1] eqn:Hi; cbn in *;
            [ | destruct (is_HTTPException e) eqn:He; cbn in * ]
          | ]
        | ] ]
  | ].

Lemma ingest_file_route_conflict (file : UploadFile) (u : User) (w : World S)
    (existing : Document) :
  existing ∈ documents w →
  filename file = Some (row_filename existing) →
  ingest_file_route UPLOAD_DIR can_write file u w
  = (Raise (HTTPException 409 "File already exists. Choose a different file." []),
     w).
Proof.
  intros Hin Hname.
  destruct (find_filename_some (row_filename existing) (documents w) existing
              Hin eq_refl) as [found Hfound].
  destruct file as [fn bytes]. cbn in Hname. subst fn.
  run_router. rewrite Hfound. reflexivity.
Qed.

Lemma ingest_file_route_audit (file : UploadFile) (u : User) (w : World S) :
  is_Return (fst (ingest_file_route UPLOAD_DIR can_write file u w)) = true →
  ∃ details : list (string * string),
    audits (snd (ingest_file_route UPLOAD_DIR can_write file u w))
    = audits w ++ [{| audit_model := "Document"; audit_action := "create";
                      audit_details := details; audit_user_id := id u |}].
Proof.
  intros Hret. ingest_cases file u w; try discriminate.
  eexists. reflexivity.
Qed.

Lemma ingest_file_route_documents (file : UploadFile) (u : User) (w : World S) :
  documents (snd (ingest_file_route UPLOAD_DIR can_write file u w)) = documents w
  ∨ ∃ row : Document,
      documents (snd (ingest_file_route UPLOAD_DIR can_write file u w))
      = documents w ++ [row]
      ∧ row_filename row ∉ map row_filename (documents w).
Proof.
  ingest_cases file u w;
    try (left; reflexivity);
    right; eexists; (split; [reflexivity|]); cbn;
    apply find_filename_none; exact Hf.
Qed.

Lemma delete_file_query_fails (d : DeleteFilename) (u : User) (w : World S)
    (e : exn) :
  get_doc_ids_by_filename (del_filename d) (service w) = Raise e →
  delete_file UPLOAD_DIR d u w
  = (Raise (HTTPException 500 "Internal Server Error" []), w).
Proof.
  intros Hids. unfold delete_file, try_except, bind, ask_service.
  rewrite Hids. reflexivity.
Qed.

Lemma delete_file_loop_fails (d : DeleteFilename) (u : User) (w : World S)
    (ids : list string) (e : exn) (s' : S) :
  get_doc_ids_by_filename (del_filename d) (service w) = Return ids →
  ids ≠ [] →
  for_each ids delete (service w) = (Raise e, s') →
  delete_file UPLOAD_DIR d u w
  = (Raise (HTTPException 500 "Internal Server Error" []),
     {| documents := documents w; uploads := uploads w; service := s';
        audits := audits w |}).
Proof.
  intros Hids Hne Hdel.
  assert (Hnon : nonempty ids = true)
    by (destruct ids; [contradiction | reflexivity]).
  pose proof (for_each_delete ids w) as Hfe. rewrite Hdel in Hfe.
  unfold delete_file, try_except, bind at 1, ask_service.
  rewrite Hids, Hnon. cbn [negb]. unfold bind at 1.
  rewrite Hfe. reflexivity.
Qed.

(** A deletion that returns has found document ids and deleted each. *)
Lemma delete_file_returns_inv (d : DeleteFilename) (u : User) (w : World S) :
  is_Return (fst (delete_file UPLOAD_DIR d u w)) = true →
  ∃ (doc_ids : list string) (s' : S),
    get_doc_ids_by_filename (del_filename d) (service w) = Return doc_ids
    ∧ doc_ids ≠ []
    ∧ for_each doc_ids delete (service w) = (Return tt, s').
Proof.
  intros Hret.
  destruct (get_doc_ids_by_filename (del_filename d) (service w)) as [ids|e] eqn:Hids.
  2:{ rewrite (delete_file_query_fails d u w e Hids) in Hret. discriminate. }
  destruct ids as [|i ids].
  { rewrite (delete_file_no_documents d u w Hids) in Hret. discriminate. }
  assert (Hne : i :: ids ≠ []) by discriminate.
  destruct (for_each (i :: ids) delete (service w)) as [[[]|e] s'] eqn:Hdel.
  - exists (i :: ids), s'. split; [reflexivity|]. split; [exact Hne | exact Hdel].
  - rewrite (delete_file_loop_fails d u w (i :: ids) e s' Hids Hne Hdel) in Hret.
    discriminate.
Qed.

Lemma delete_file_documents (d : DeleteFilename) (u : User) (w : World S) :
  documents (snd (delete_file UPLOAD_DIR d u w)) `sublist_of` documents w.
Proof.
  destruct (get_doc_ids_by_filename (del_filename d) (service w)) as [ids|e] eqn:Hids.
  2:{ rewrite (delete_file_query_fails d u w e Hids). reflexivity. }
  destruct ids as [|i ids].
  { rewrite (delete_file_no_documents d u w Hids). reflexivity. }
  assert (Hne : i :: ids ≠ []) by discriminate.
  destruct (for_each (i :: ids) delete (service w)) as [[[]|e] s'] eqn:Hdel.
  - rewrite (delete_file_success d u w (i :: ids) s' Hids Hne Hdel). cbn.
    destruct (find _ (documents w)); [apply sublist_filter | reflexivity].
  - rewrite (delete_file_loop_fails d u w (i :: ids) e s' Hids Hne Hdel).
    reflexivity.
Qed.

Lemma ingest_file_1_documents (file : UploadFile) (w : World S) :
  documents (snd (ingest_file_1 UPLOAD_DIR can_write file w)) = documents w.
Proof.
  destruct file as [[name|] bytes]; run_router; [|reflexivity].
  destruct (can_write (upload_path_of UPLOAD_DIR name)); cbn; [|reflexivity].
  rewrite lookup_insert_eq. cbn.
  destruct (ingest_bin_data name bytes (service w)) as [[docs|e] s1];
    reflexivity.
Qed.

(** Every request of the router keeps the file names of the table distinct. *)
Lemma handle_unique_filenames (r : Request) (w : World S) :
  unique_filenames w → unique_filenames (handle UPLOAD_DIR can_write r w).
Proof.
  unfold unique_filenames. intros Hu.
  destruct r as [file|file|body| |doc|d u|file u]; cbn [handle].
  - exact Hu.
  - rewrite ingest_file_1_documents. exact Hu.
  - unfold ingest_text_route.
    destruct (String.length (file_name body) =? 0)%nat; [exact Hu|].
    unfold bind, on_service.
    destruct (ingest_text (file_name body) (text body) (service w))
      as [[docs|e] s1]; exact Hu.
  - unfold list_ingested_route, bind, ask_service.
    destruct (list_ingested (service w)); exact Hu.
  - unfold delete_ingested, on_service.
    destruct (delete doc (service w)) as [r s1]. exact Hu.
  - eapply sublist_NoDup; [exact Hu|]. apply fmap_sublist.
    apply delete_file_documents.
  - destruct (ingest_file_route_documents file u w) as [-> | (row & -> & Hfresh)];
      [exact Hu|].
    rewrite map_app. apply NoDup_app. split; [exact Hu|]. split.
    + intros x Hx Hin. cbn in Hin. apply list_elem_of_singleton in Hin.
      subst x. contradiction.
    + cbn. apply NoDup_singleton.
Qed.

Lemma run_unique_filenames (rs : list Request) (w : World S) :
  unique_filenames w → unique_filenames (run UPLOAD_DIR can_write rs w).
Proof.
  revert w. induction rs as [|r rs IH]; intros w Hu; [exact Hu|].
  cbn. apply IH. apply handle_unique_filenames. exact Hu.
Qed.

(** C5: a POST /v1/ingest/file request that returns has written exactly one
    audit row, [('Document', 'create', user id)], after what was there; a
    POST /v1/ingest/file/delete request that returns, on a table holding a
    row for the file name, has removed such a row and written exactly one
    audit row, [('Document', 'delete', user id)]. *)
Theorem ingestion_and_deletion_audited (file : UploadFile) (d : DeleteFilename)
    (u : User) (w v : World S) (row : Document) :
  is_Return (fst (ingest_file_route UPLOAD_DIR can_write file u w)) = true →
  is_Return (fst (delete_file UPLOAD_DIR d u v)) = true →
  row ∈ documents v →
  row_filename row = del_filename d →
  (∃ details : list (string * string),
     audits (snd (ingest_file_route UPLOAD_DIR can_write file u w))
     = audits w ++ [{| audit_model := "Document"; audit_action := "create";
                       audit_details := details; audit_user_id := id u |}])
  ∧ (∃ (details : list (string * string)) (removed : Document),
       audits (snd (delete_file UPLOAD_DIR d u v))
       = audits v ++ [{| audit_model := "Document"; audit_action := "delete";
                         audit_details := details; audit_user_id := id u |}]
       ∧ removed ∈ documents v
       ∧ row_filename removed = del_filename d
       ∧ removed ∉ documents (snd (delete_file UPLOAD_DIR d u v))).
Proof.
  intros Hing Hdel Hrow Hname. split.
  - apply ingest_file_route_audit. exact Hing.
  - destruct (delete_file_returns_inv d u v Hdel) as (ids & s' & Hids & Hne & Hfe).
    rewrite (delete_file_success d u v ids s' Hids Hne Hfe). cbn.
    destruct (find_filename_some (del_filename d) (documents v) row Hrow Hname)
      as [found Hfound].
    rewrite Hfound. exists (Spec.success_message (del_filename d)), found.
    apply find_filename_elem in Hfound as [Hin Hfn].
    split; [reflexivity|]. split; [exact Hin|]. split; [exact Hfn|].
    intros Hmem. apply list_elem_of_filter in Hmem as [Hid _]. congruence.
Qed.

(** C8: POST /v1/ingest/file on a file whose name already has a row raises
    HTTP 409 and leaves the table, the upload directory, the storage context
    and the audit trail as they were; and whatever requests the router
    serves, in whatever order, the file names of the document table stay
    pairwise distinct. *)
Theorem ingested_filenames_unique (file : UploadFile) (u : User)
    (w w0 : World S) (existing : Document) (rs : list Request) :
  existing ∈ documents w →
  filename file = Some (row_filename existing) →
  unique_filenames w0 →
  ingest_file_route UPLOAD_DIR can_write file u w
  = (Raise (HTTPException 409 "File already exists. Choose a different file." []),
     w)
  ∧ unique_filenames (run UPLOAD_DIR can_write rs w0).
Proof.
  intros Hin Hname Hu. split.
  - apply (ingest_file_route_conflict file u w existing Hin Hname).
  - apply run_unique_filenames. exact Hu.
Qed.

End IngestFacts.

(** *** The router on the in-memory service *)

Lemma ingest_text_contract_witness :
  IngestRouter.ingest_text_route
    {| IngestRouter.file_name := EmptyString; IngestRouter.text := "lost" |}
    Sample.world0
  = (Raise (HTTPException 400 "No file name provided" []), Sample.world0)
  ∧ ∃ w' : IngestRouter.World IngestRouter.MemService,
      IngestRouter.ingest_text_route
        {| IngestRouter.file_name := "notes"; IngestRouter.text := "hello" |}
        Sample.world0
      = (Return {| IngestRouter.object := "list";
                   IngestRouter.model := "private-gpt";
                   IngestRouter.data := [IngestRouter.mem_doc "notes"] |}, w')
      ∧ IngestRouter.service w' = [IngestRouter.mem_doc "notes"]
      ∧ IngestRouter.documents w' = []
      ∧ IngestRouter.uploads w' = ∅
      ∧ IngestRouter.audits w' = [].
Proof.
  apply (ingest_text_contract
           {| IngestRouter.file_name := EmptyString; IngestRouter.text := "lost" |}
           {| IngestRouter.file_name := "notes"; IngestRouter.text := "hello" |}
           Sample.world0 [IngestRouter.mem_doc "notes"]
           [IngestRouter.mem_doc "notes"]).
  - reflexivity.
  - discriminate.
  - reflexivity.
Defined.

Lemma delete_file_contract_witness :
  (∃ e : exn,
     is_HTTPException e = true
     ∧ IngestRouter.delete_file "uploads"
         {| IngestRouter.del_filename := "report.pdf" |} Sample.admin Sample.world0
       = (Raise e, Sample.world0))
  ∧ ∃ w' : IngestRouter.World IngestRouter.MemService,
      IngestRouter.delete_file "uploads"
        {| IngestRouter.del_filename := "report.pdf" |} Sample.admin Sample.world1
      = (Return [("status", "SUCCESS");
                 ("message", "report.pdf' successfully deleted.")], w')
      ∧ IngestRouter.service w' = []
      ∧ IngestRouter.documents w' = [].
Proof.
  destruct (delete_file_contract "uploads"
              {| IngestRouter.del_filename := "report.pdf" |} Sample.admin
              Sample.world0 Sample.world1 ["doc:report.pdf"] [])
    as [Hnone (w' & Hrun & Hsvc & _ & _ & Hrow & _)].
  - reflexivity.
  - reflexivity.
  - discriminate.
  - reflexivity.
  - split; [exact Hnone|].
    exists w'. split; [exact Hrun|]. split; [exact Hsvc|].
    destruct (Hrow Sample.report_row eq_refl) as [_ ->]. reflexivity.
Defined.

Lemma ingestion_and_deletion_audited_witness :
  (∃ details : list (string * string),
     IngestRouter.audits Sample.world1
     = [{| IngestRouter.audit_model := "Document";
           IngestRouter.audit_action := "create";
           IngestRouter.audit_details := details;
           IngestRouter.audit_user_id := 7 |}])
  ∧ (∃ (details : list (string * string)) (removed : IngestRouter.Document),
       IngestRouter.audits
         (snd (IngestRouter.delete_file "uploads"
                 {| IngestRouter.del_filename := "report.pdf" |}
                 Sample.admin Sample.world1))
       = IngestRouter.audits Sample.world1
         ++ [{| IngestRouter.audit_model := "Document";
                IngestRouter.audit_action := "delete";
                IngestRouter.audit_details := details;
                IngestRouter.audit_user_id := 7 |}]
       ∧ removed ∈ IngestRouter.documents Sample.world1
       ∧ IngestRouter.row_filename removed = "report.pdf"
       ∧ removed ∉ IngestRouter.documents
                     (snd (IngestRouter.delete_file "uploads"
                             {| IngestRouter.del_filename := "report.pdf" |}
                             Sample.admin Sample.world1))).
Proof.
  apply (ingestion_and_deletion_audited "uploads" Sample.writable Sample.report
           {| IngestRouter.del_filename := "report.pdf" |} Sample.admin
           Sample.world0 Sample.world1 Sample.report_row).
  - reflexivity.
  - reflexivity.
  - apply list_elem_of_here.
  - reflexivity.
Defined.

Lemma ingested_filenames_unique_witness :
  IngestRouter.ingest_file_route "uploads" Sample.writable Sample.report
    Sample.admin Sample.world1
  = (Raise (HTTPException 409 "File already exists. Choose a different file." []),
     Sample.world1)
  ∧ IngestRouter.unique_filenames
      (IngestRouter.run "uploads" Sample.writable
         [IngestRouter.PostIngestFile Sample.report Sample.admin;
          IngestRouter.PostIngestFile Sample.report Sample.admin;
          IngestRouter.PostIngest Sample.report]
         Sample.world0).
Proof.
  apply (ingested_filenames_unique "uploads" Sample.writable Sample.report
           Sample.admin Sample.world1 Sample.world0 Sample.report_row).
  - apply list_elem_of_here.
  - reflexivity.
  - apply NoDup_nil_2.
Defined.

(** * Further properties of the code *)

(** ** The event generator, one [next()] at a time *)

Lemma drain_finished (simple_json_delta : option string -> string) (n : nat) :
  Completions.drain simple_json_delta n Completions.Finished = [].
Proof. destruct n; reflexivity. Qed.

(** X1: after [n] calls of [next()] the generator [_to_openai_sse_stream] has
    yielded exactly the first [n] elements of its stream, for every [n]: the
    events come out one per response as the responses arrive, [data: [DONE]]
    is yielded once the responses are used up, and every later [next()]
    finds the generator exhausted. *)
Theorem sse_generator_yields_prefixes
    (simple_json_delta : option string -> string)
    (gen : list Completions.CompletionResponse) (n : nat) :
  Completions.drain simple_json_delta n (Completions.InLoop gen)
  = take n (Completions._to_openai_sse_stream simple_json_delta gen).
Proof.
  unfold Completions._to_openai_sse_stream.
  revert n. induction gen as [|r gen IH]; intros [|n]; try reflexivity.
  - cbn. rewrite drain_finished. destruct n; reflexivity.
  - cbn. f_equal. apply IH.
Qed.

(** ** src/api/main.py: the prompt the model sees *)

Lemma str_prefix_length (n : nat) (s : string) :
  String.length (ApiMain.str_prefix n s) = Nat.min n (String.length s).
Proof.
  unfold ApiMain.str_prefix. revert n.
  induction s as [|c s IH]; intros [|n]; cbn; try reflexivity.
  f_equal. apply IH.
Qed.

Lemma str_prefix_is_prefix (n : nat) (s : string) :
  String.prefix (ApiMain.str_prefix n s) s = true.
Proof.
  unfold ApiMain.str_prefix. revert n.
  induction s as [|c s IH]; intros [|n]; cbn; try reflexivity.
  destruct (Ascii.ascii_dec c c) as [_|Hne]; [apply IH | contradiction].
Qed.

Lemma str_prefix_short (n : nat) (s : string) :
  (String.length s <= n)%nat → ApiMain.str_prefix n s = s.
Proof.
  unfold ApiMain.str_prefix. revert n.
  induction s as [|c s IH]; intros [|n] Hle; cbn in *; try reflexivity; try lia.
  f_equal. apply IH. lia.
Qed.

(** X2: [_run_llm] of src/api/main.py hands the model a prefix of the prompt
    of at most [context_window] characters (the whole prompt when it is that
    short) and streams the events of what the model answers to it; without a
    ["llama"] entry in [llms] it raises [KeyError]. *)
Theorem run_llm_truncates_prompt
    (simple_json_delta : option string -> string)
    (llms without : gmap string ApiMain.LlamaCPP) (llm : ApiMain.LlamaCPP)
    (prompt : string) :
  llms !! "llama" = Some llm →
  without !! "llama" = None →
  ApiMain._run_llm simple_json_delta without prompt = Raise (KeyError "llama")
  ∧ ∃ sent : string,
      ApiMain._run_llm simple_json_delta llms prompt
      = Return (Completions._to_openai_sse_stream simple_json_delta
                  (ApiMain.llm_stream_complete llm sent))
      ∧ String.prefix sent prompt = true
      ∧ String.length sent
        = Nat.min (ApiMain.context_window llm) (String.length prompt)
      ∧ ((String.length prompt <= ApiMain.context_window llm)%nat →
         sent = prompt).
Proof.
  intros Hin Hout. unfold ApiMain._run_llm. rewrite Hin, Hout.
  split; [reflexivity|].
  exists (ApiMain.str_prefix (ApiMain.context_window llm) prompt).
  split; [reflexivity|].
  split; [apply str_prefix_is_prefix|].
  split; [apply str_prefix_length | apply str_prefix_short].
Qed.

Lemma run_llm_truncates_prompt_witness :
  let echo := {| ApiMain.context_window := 3; ApiMain.max_new_tokens := 1;
                 ApiMain.llm_stream_complete := fun p =>
                   [{| Completions.text := p; Completions.delta := Some p |}] |} in
  ApiMain._run_llm (default EmptyString) ∅ "abcdef" = Raise (KeyError "llama")
  ∧ ∃ sent : string,
      ApiMain._run_llm (default EmptyString) (<["llama" := echo]> ∅) "abcdef"
      = Return (Completions._to_openai_sse_stream (default EmptyString)
                  (ApiMain.llm_stream_complete echo sent))
      ∧ String.prefix sent "abcdef" = true
      ∧ String.length sent = 3%nat
      ∧ ((6 <= 3)%nat → sent = "abcdef").
Proof.
  intros echo.
  apply (run_llm_truncates_prompt (default EmptyString)
           (<["llama" := echo]> ∅) ∅ echo "abcdef").
  - apply lookup_insert_eq.
  - apply lookup_empty.
Defined.

(** ** ChatService without a message *)

(** X3: with truthy context files and no message at all, [stream_chat] and
    [chat] raise [IndexError] (from [messages[-1]]) before any request is
    sent to the chat engine or to the LLM. *)
Theorem chat_with_context_needs_a_message
    (ContextFiles DocStore : Type) (truth : ContextFiles -> bool)
    (get_context_nodes : ContextFiles -> DocStore -> list string)
    (docstore : DocStore)
    (engine_stream_chat :
       ChatService.ContextChatEngine -> string -> list ChatService.ChatMessage
       -> list string)
    (engine_chat :
       ChatService.ContextChatEngine -> string -> list ChatService.ChatMessage
       -> string)
    (llm_stream_chat : list ChatService.ChatMessage -> list string)
    (llm_chat : list ChatService.ChatMessage -> option string)
    (cf : ContextFiles) (t : ChatService.Trace) :
  truth cf = true →
  ChatService.stream_chat ContextFiles truth DocStore get_context_nodes docstore
    engine_stream_chat engine_chat llm_stream_chat [] (Some cf) t
  = (Raise IndexError, t)
  ∧ ChatService.chat ContextFiles truth DocStore get_context_nodes docstore
      engine_stream_chat engine_chat llm_chat [] (Some cf) t
    = (Raise IndexError, t).
Proof.
  intros Hcf. unfold ChatService.stream_chat, ChatService.chat.
  rewrite Hcf. split; reflexivity.
Qed.

Lemma chat_with_context_needs_a_message_witness :
  ChatService.stream_chat (list string) Deps.nonempty unit
    (fun cf _ => cf) tt (fun _ q _ => [q]) (fun _ q _ => q) (fun _ => ["plain"])
    [] (Some ["a.pdf"]) []
  = (Raise IndexError, []).
Proof.
  exact (proj1 (chat_with_context_needs_a_message (list string) unit
                  Deps.nonempty (fun cf _ => cf) tt (fun _ q _ => [q])
                  (fun _ q _ => q) (fun _ => ["plain"]) (fun _ => None)
                  ["a.pdf"] [] eq_refl)).
Defined.

(** ** Chat histories: listing, creating, and the owner's requests *)

(** X4: GET /c and POST /c/create hand back what [crud.chat] returns, called
    with the id of the authenticated user, and turn any exception of
    [crud.chat] into HTTP 500 "Internal Server Error"; whatever [crud.chat]
    has written by then stays written. *)
Theorem list_and_create_pass_through {DB : Type}
    (crud : ChatHistories.ChatCrud DB) (db : DB) (u : ChatHistories.User)
    (skip limit : Z) (new : ChatHistories.ChatCreate) :
  ChatHistories.list_chat_histories skip limit u db
  = (match fst (ChatHistories.crud_chat_get_multi skip limit
                  (ChatHistories.id u) db) with
     | Return rows => Return rows
     | Raise _ => Raise ChatHistories.internal_server_error
     end,
     snd (ChatHistories.crud_chat_get_multi skip limit (ChatHistories.id u) db))
  ∧ ChatHistories.create_chat_history new u db
    = (match fst (ChatHistories.crud_chat_create new (ChatHistories.id u) db) with
       | Return row => Return row
       | Raise _ => Raise ChatHistories.internal_server_error
       end,
       snd (ChatHistories.crud_chat_create new (ChatHistories.id u) db)).
Proof.
  unfold ChatHistories.list_chat_histories, ChatHistories.create_chat_history,
    try_except, bind, ret, raise.
  destruct (ChatHistories.crud_chat_get_multi skip limit (ChatHistories.id u) db)
    as [[rows|e1] db1];
  destruct (ChatHistories.crud_chat_create new (ChatHistories.id u) db)
    as [[row|e2] db2];
  split; reflexivity.
Qed.

(** X5: for the owner of a chat history the three handlers go through: the
    read returns the row [crud.chat] found, the update returns the row
    [update_messages] gives for that row and the request, and the deletion
    calls [remove] with the requested id and answers 200 with the
    confirmation message. *)
Theorem owner_requests_go_through {DB : Type}
    (crud : ChatHistories.ChatCrud DB) (db db1 db2 db3 : DB)
    (u : ChatHistories.User) (ch updated : ChatHistories.ChatHistory)
    (upd : ChatHistories.ChatUpdate) (del : ChatHistories.ChatDelete) :
  ChatHistories.user_id ch = ChatHistories.id u →
  ChatHistories.crud_chat_get_by_id (ChatHistories.upd_conversation_id upd) db
  = (Return (Some ch), db1) →
  ChatHistories.crud_chat_update_messages ch upd db1 = (Return updated, db2) →
  ChatHistories.crud_chat_get (ChatHistories.del_id del) db
  = (Return (Some ch), db1) →
  ChatHistories.crud_chat_remove (ChatHistories.del_id del) db1
  = (Return tt, db3) →
  ChatHistories.read_chat_history (ChatHistories.upd_conversation_id upd) u db
  = (Return ch, db1)
  ∧ ChatHistories.conversation upd u db = (Return updated, db2)
  ∧ ChatHistories.delete_chat_history del u db
    = (Return {| ChatHistories.status_code := 200;
                 ChatHistories.json_content :=
                   [("message", "Chat history deleted successfully")] |}, db3).
Proof.
  intros Hown Hget Hupd Hget' Hrem.
  assert (Hf : ChatHistories.foreign ch u = false).
  { unfold ChatHistories.foreign. rewrite Hown, Z.eqb_refl. reflexivity. }
  unfold ChatHistories.read_chat_history, ChatHistories.conversation,
    ChatHistories.delete_chat_history, try_except, bind.
  cbn zeta. rewrite Hget, Hget', Hf, Hupd, Hrem. repeat split.
Qed.

(** User 1 reads, extends and deletes the chat history 5, which is theirs. *)
Lemma owner_requests_go_through_witness :
  let row := {| ChatHistories.conversation_id := 5; ChatHistories.user_id := 1;
                ChatHistories.title := "t"; ChatHistories.chat_items := ["hello"] |} in
  let row' := {| ChatHistories.conversation_id := 5; ChatHistories.user_id := 1;
                 ChatHistories.title := "t";
                 ChatHistories.chat_items := ["hello"; "again"] |} in
  let upd := {| ChatHistories.upd_conversation_id := 5;
                ChatHistories.upd_message := "again" |} in
  ChatHistories.read_chat_history 5 {| ChatHistories.id := 1 |} [row]
  = (Return row, [row])
  ∧ ChatHistories.conversation upd {| ChatHistories.id := 1 |} [row]
    = (Return row', [row'])
  ∧ ChatHistories.delete_chat_history {| ChatHistories.del_id := 5 |}
      {| ChatHistories.id := 1 |} [row]
    = (Return {| ChatHistories.status_code := 200;
                 ChatHistories.json_content :=
                   [("message", "Chat history deleted successfully")] |}, []).
Proof.
  intros row row' upd.
  apply (owner_requests_go_through ChatHistories.table_crud [row] [row] [row'] []
           {| ChatHistories.id := 1 |} row row' upd
           {| ChatHistories.del_id := 5 |});
    reflexivity.
Defined.

(** ** deps.py: the guards built on [get_current_user] *)

(** X6: [get_current_active_user] returns [u] exactly when the token entitles
    its bearer to act as [u] under the scopes of the route and [u] is active;
    for an entitled but inactive user it raises HTTP 400 "Inactive user", and
    in every other case it fails as [get_current_user] does. *)
Theorem get_current_active_user_admits {User Session : Type}
    (jwt_decode : string -> string -> list string -> option Deps.Payload)
    (JWT_SECRET_KEY ALGORITHM : string)
    (TokenPayload_of : Deps.Payload -> option Deps.TokenPayload)
    (crud_user_get : Session -> Z -> option User)
    (crud_user_is_active : User -> bool)
    (security_scopes : Deps.SecurityScopes) (token : string) (db : Session) :
  let inner := Deps.get_current_user User Session jwt_decode JWT_SECRET_KEY
                 ALGORITHM TokenPayload_of crud_user_get security_scopes token db in
  let r := Deps.get_current_active_user User Session jwt_decode JWT_SECRET_KEY
             ALGORITHM TokenPayload_of crud_user_get crud_user_is_active
             security_scopes token db in
  (∀ u : User,
     r = (Return u, db) ↔
     Spec.authorised jwt_decode JWT_SECRET_KEY ALGORITHM TokenPayload_of
       crud_user_get security_scopes token db u
     ∧ crud_user_is_active u = true)
  ∧ (∀ u : User,
       Spec.authorised jwt_decode JWT_SECRET_KEY ALGORITHM TokenPayload_of
         crud_user_get security_scopes token db u →
       crud_user_is_active u = false →
       r = (Raise (HTTPException 400 "Inactive user" []), db))
  ∧ (∀ e : exn, fst inner = Raise e → r = (Raise e, db)).
Proof.
  intros inner r.
  assert (Hinner : inner = (fst inner, db)).
  { subst inner. rewrite get_current_user_cases. reflexivity. }
  assert (Hr : r = match fst inner with
                   | Return u => if negb (crud_user_is_active u)
                                 then (Raise (HTTPException 400 "Inactive user" []), db)
                                 else (Return u, db)
                   | Raise e => (Raise e, db)
                   end).
  { subst r. unfold Deps.get_current_active_user, bind. fold inner.
    rewrite Hinner. cbn [fst]. destruct (fst inner) as [u|e]; [|reflexivity].
    destruct (crud_user_is_active u); reflexivity. }
  split; [|split].
  - intros u. rewrite <- (get_current_user_returns_iff jwt_decode JWT_SECRET_KEY
                            ALGORITHM TokenPayload_of crud_user_get
                            security_scopes token db u).
    fold inner. rewrite Hr. destruct (fst inner) as [u'|e].
    + destruct (crud_user_is_active u') eqn:Hact; cbn; split.
      * intros Heq. injection Heq as <-. split; [reflexivity | exact Hact].
      * intros [Heq _]. injection Heq as <-. reflexivity.
      * intros Heq. discriminate.
      * intros [Heq Hu]. injection Heq as <-. congruence.
    + split; [intros Heq; discriminate | intros [Heq _]; discriminate].
  - intros u Hauth Hinactive.
    apply (get_current_user_returns_iff jwt_decode JWT_SECRET_KEY ALGORITHM
             TokenPayload_of crud_user_get security_scopes token db u) in Hauth.
    fold inner in Hauth. rewrite Hr, Hauth, Hinactive. reflexivity.
  - intros e He. rewrite Hr, He. reflexivity.
Qed.

(** Alice is active and is let in; with everyone inactive she gets 400; a
    forged token fails as in [get_current_user]. *)
Lemma get_current_active_user_admits_witness :
  Deps.get_current_active_user string (list (Z * string)) Sample.jwt_decode
    "secret" "HS256" Sample.TokenPayload_of Sample.crud_user_get
    (fun _ => false) Sample.admin_only "good" Sample.users
  = (Raise (HTTPException 400 "Inactive user" []), Sample.users)
  ∧ Deps.get_current_active_user string (list (Z * string)) Sample.jwt_decode
      "secret" "HS256" Sample.TokenPayload_of Sample.crud_user_get
      (fun _ => true) Sample.admin_only "forged" Sample.users
    = (Raise Deps.could_not_validate, Sample.users).
Proof.
  split.
  - apply (proj1 (proj2 (get_current_active_user_admits Sample.jwt_decode
                           "secret" "HS256" Sample.TokenPayload_of
                           Sample.crud_user_get (fun _ => false)
                           Sample.admin_only "good" Sample.users)) "alice");
      [|reflexivity].
    exact (proj1 (get_current_user_returns_iff Sample.jwt_decode "secret" "HS256"
                    Sample.TokenPayload_of Sample.crud_user_get
                    Sample.admin_only "good" Sample.users "alice") eq_refl).
  - apply (proj2 (proj2 (get_current_active_user_admits Sample.jwt_decode
                           "secret" "HS256" Sample.TokenPayload_of
                           Sample.crud_user_get (fun _ => true)
                           Sample.admin_only "forged" Sample.users))).
    reflexivity.
Defined.

Lemma first_active_some (subs : list Deps.Subscription) :
  (∃ s, Deps.first_active subs = Some s) ↔
  ∃ s, s ∈ subs ∧ Deps.is_active s = true.
Proof.
  unfold Deps.first_active. split.
  - intros [s Hs]. apply find_some in Hs as [Hin Hact].
    exists s. split; [apply list_elem_of_In; exact Hin | exact Hact].
  - intros (s & Hin & Hact).
    destruct (find Deps.is_active subs) as [s'|] eqn:Hf; [eauto|].
    apply list_elem_of_In in Hin.
    pose proof (find_none _ _ Hf s Hin) as Hn. congruence.
Qed.

(** X7: [get_active_subscription] returns the company of the user exactly
    when the user's role names a company (an id that is neither [None] nor
    0), that company exists, and one of its subscriptions is active; in
    every other case it raises HTTP 403.  A user without a role row makes it
    fail with an [AttributeError] instead.  The database is left as it is. *)
Theorem active_subscription_required {User Session : Type}
    (user_role : User -> option Deps.UserRole)
    (crud_company_get : Session -> Z -> option Deps.Company)
    (u roleless : User) (ur : Deps.UserRole) (db : Session) :
  user_role u = Some ur →
  user_role roleless = None →
  let r := Deps.get_active_subscription User Session user_role crud_company_get
             u db in
  (∀ c : Deps.Company,
     r = (Return c, db) ↔
     ∃ cid : Z,
       Deps.company_id ur = Some cid ∧ cid ≠ 0
       ∧ crud_company_get db cid = Some c
       ∧ ∃ s, s ∈ Deps.subscriptions c ∧ Deps.is_active s = true)
  ∧ ((∃ c, r = (Return c, db)) ∨ r = (Raise Deps.no_active_subscription, db))
  ∧ Deps.get_active_subscription User Session user_role crud_company_get
      roleless db
    = (Raise (AttributeError "company_id"), db).
Proof.
  intros Hur Hnone r. subst r.
  unfold Deps.get_active_subscription. rewrite Hur, Hnone.
  unfold bind, get, raise, ret.
  split; [|split; [|reflexivity]].
  - intros c. destruct (Deps.company_id ur) as [cid|] eqn:Hcid.
    2:{ split; [discriminate | intros (k & Hk & _); discriminate]. }
    destruct (cid =? 0)%Z eqn:Hz; cbn.
    { apply Z.eqb_eq in Hz. split; [discriminate|].
      intros (k & Hk & Hne & _). injection Hk as <-. contradiction. }
    apply Z.eqb_neq in Hz.
    destruct (crud_company_get db cid) as [company|] eqn:Hco.
    2:{ split; [discriminate|]. intros (k & Hk & _ & Hget & _).
        injection Hk as <-. congruence. }
    pose proof (first_active_some (Deps.subscriptions company)) as Hfa.
    destruct (Deps.subscriptions company) as [|s0 subs] eqn:Hsubs;
      cbn [Deps.nonempty].
    { split; [discriminate|]. intros (k & Hk & _ & Hget & s & Hin & _).
      injection Hk as <-. rewrite Hco in Hget. injection Hget as <-.
      rewrite Hsubs in Hin. inversion Hin. }
    destruct (Deps.first_active (s0 :: subs)) as [s|] eqn:Hfirst; cbn.
    + split.
      * intros Heq. injection Heq as <-. exists cid. repeat split; try assumption.
        rewrite Hsubs. apply Hfa. eauto.
      * intros (k & Hk & _ & Hget & _). injection Hk as <-. congruence.
    + split; [discriminate|]. intros (k & Hk & _ & Hget & Hex).
      injection Hk as <-. rewrite Hco in Hget. injection Hget as <-.
      rewrite Hsubs in Hex. apply Hfa in Hex as [s Hs]. discriminate.
  - destruct (Deps.company_id ur) as [cid|]; [|right; reflexivity].
    destruct (cid =? 0)%Z; cbn; [right; reflexivity|].
    destruct (crud_company_get db cid) as [company|]; [|right; reflexivity].
    destruct (Deps.subscriptions company) as [|s0 subs] eqn:Hsubs;
      cbn [Deps.nonempty]; [right; reflexivity|].
    destruct (Deps.first_active (s0 :: subs)); [left; eauto | right; reflexivity].
Qed.

(** Company 4 has a lapsed and an active subscription; a user without a
    role row gets no verdict. *)
Lemma active_subscription_required_witness :
  let acme := {| Deps.company_name := "acme";
                 Deps.subscriptions := [{| Deps.is_active := false |};
                                        {| Deps.is_active := true |}] |} in
  let companies := fun (_ : unit) (cid : Z) =>
                     if (cid =? 4)%Z then Some acme else None in
  let role_of := fun user : option Z =>
                   match user with
                   | Some cid => Some {| Deps.company_id := Some cid |}
                   | None => None
                   end in
  Deps.get_active_subscription (option Z) unit role_of companies (Some 4) tt
  = (Return acme, tt)
  ∧ Deps.get_active_subscription (option Z) unit role_of companies None tt
    = (Raise (AttributeError "company_id"), tt).
Proof.
  intros acme companies role_of.
  pose proof (active_subscription_required role_of companies (Some 4) None
                {| Deps.company_id := Some 4 |} tt eq_refl eq_refl) as Hthm.
  split.
  - apply (proj1 Hthm acme).
    exists 4. split; [reflexivity|]. split; [discriminate|].
    split; [reflexivity|].
    exists {| Deps.is_active := true |}. split; [|reflexivity].
    apply list_elem_of_further, list_elem_of_here.
  - exact (proj2 (proj2 Hthm)).
Defined.

(** ** The ingestion router: failures, retries and round trips *)

Section IngestMore.
Import IngestRouter.
Context {S : Type} `{IngestService S}.
Variable UPLOAD_DIR : string.
Variable can_write : string -> bool.
Variable path_name : string -> string.

Ltac run_router :=
  unfold ingest, ingest_file_route, ingest_file, ingest_file_1, ingest_text_route,
    list_ingested_route, delete_ingested, delete_file, common_ingest_logic,
    crud_documents_get_by_filename, crud_documents_create,
    crud_documents_remove, call_log_audit, write_file, read_file, os_remove,
    on_service, ask_service, attr_filename, attr_id, attr_department_id,
    attr_file_read, attr_fullname, as_session, try_except, bind, lift, raise, ret
    in *;
  cbn in *.

Lemma find_filename_fresh (name : string) (rows : list Document) :
  name ∉ map row_filename rows →
  find (fun d => String.eqb (row_filename d) name) rows = None.
Proof.
  intros Hfresh.
  destruct (find (fun d => String.eqb (row_filename d) name) rows) as [doc|] eqn:Hf;
    [|reflexivity].
  exfalso. apply find_filename_elem in Hf as [Hin Hname]. apply Hfresh.
  rewrite <- Hname. apply list_elem_of_In, in_map, list_elem_of_In. exact Hin.
Qed.

Lemma find_filename_snoc (name : string) (rows : list Document) (row : Document) :
  find (fun d => String.eqb (row_filename d) name) rows = None →
  row_filename row = name →
  find (fun d => String.eqb (row_filename d) name) (rows ++ [row]) = Some row.
Proof.
  intros Hnone Hname. induction rows as [|r rows IH]; cbn in *.
  - rewrite Hname, String.eqb_refl. reflexivity.
  - destruct (String.eqb (row_filename r) name); [discriminate | auto].
Qed.

Lemma row_id_below_fresh (rows : list Document) (r : Document) :
  r ∈ rows → row_id r < fresh_row_id rows.
Proof.
  unfold fresh_row_id. induction rows as [|x rows IH]; intros Hin.
  - inversion Hin.
  - cbn. apply elem_of_cons in Hin as [->|Hin]; [lia|].
    specialize (IH Hin). lia.
Qed.

Lemma filter_fresh_row (rows : list Document) (row : Document) (i : Z) :
  i = fresh_row_id rows →
  row_id row = i →
  filter (fun r => row_id r ≠ i) (rows ++ [row]) = rows.
Proof.
  intros Hi Hid. rewrite filter_app.
  rewrite (filter_cons_False _ row []) by (intros Hne; apply Hne; exact Hid).
  rewrite filter_nil, app_nil_r.
  assert (Hall : ∀ r, r ∈ rows → row_id r ≠ i).
  { intros r Hin. pose proof (row_id_below_fresh rows r Hin). lia. }
  clear Hi Hid. induction rows as [|x rows IH]; [reflexivity|].
  rewrite filter_cons_True by (apply Hall; apply list_elem_of_here).
  f_equal. apply IH. intros r Hin. apply Hall. apply list_elem_of_further. exact Hin.
Qed.

(** What a successful POST /v1/ingest/file leaves behind. *)
Lemma ingest_file_route_success (name bytes : string) (u : User) (w : World S) :
  let file := {| filename := Some name; file_bytes := bytes |} in
  is_Return (fst (ingest_file_route UPLOAD_DIR can_write file u w)) = true →
  ∃ (dept : Z) (docs : list IngestedDoc) (s1 : S),
    find (fun d => String.eqb (row_filename d) name) (documents w) = None
    ∧ ingest_bin_data name bytes (service w) = (Return docs, s1)
    ∧ ingest_file_route UPLOAD_DIR can_write file u w
      = (Return (RIngestResponse (ingest_response docs)),
         {| documents := documents w
                         ++ [{| row_id := fresh_row_id (documents w);
                                row_filename := name; uploaded_by := id u;
                                row_department_id := dept |}];
            uploads := <[upload_path_of UPLOAD_DIR name := bytes]> (uploads w);
            service := s1;
            audits := audits w
                      ++ [{| audit_model := "Document"; audit_action := "create";
                             audit_details := [("status", "200"); ("filename", name);
                                               ("user", fullname u)];
                             audit_user_id := id u |}] |}).
Proof.
  intros file Hret. subst file. run_router.
  destruct (find (fun d => String.eqb (row_filename d) name) (documents w))
    eqn:Hf; cbn in *; [discriminate|].
  destruct (department_id u) as [dept|] eqn:Hd; cbn in *; [|discriminate].
  rewrite (find_none_existsb _ _ Hf) in *. cbn in *.
  destruct (can_write (upload_path_of UPLOAD_DIR name)) eqn:Hcw; cbn in *.
  2:{ discriminate. }
  rewrite lookup_insert_eq in *. cbn in *.
  destruct (ingest_bin_data name bytes (service w)) as [[docs|e] s1] eqn:Hi;
    cbn in *.
  - exists dept, docs, s1. repeat split.
  - destruct (is_HTTPException e); discriminate.
Qed.

(** X8: when the write to the upload directory fails, or the ingestion fails
    with something that is not an [HTTPException], POST /v1/ingest/file
    answers HTTP 500 and writes one audit row for the failure, but the row it
    has inserted into the document table stays: sending the same file again
    is refused with HTTP 409, with nothing further written. *)
Theorem failed_upload_blocks_retry (name bytes : string) (u : User) (dept : Z)
    (w : World S) :
  let file := {| filename := Some name; file_bytes := bytes |} in
  let r := ingest_file_route UPLOAD_DIR can_write file u w in
  name ∉ map row_filename (documents w) →
  department_id u = Some dept →
  (can_write (upload_path_of UPLOAD_DIR name) = false
   ∨ ∃ (e : exn) (s1 : S),
       ingest_bin_data name bytes (service w) = (Raise e, s1)
       ∧ is_HTTPException e = false) →
  fst r = Raise (HTTPException 500
                   "Internal Server Error: Unable to ingest file." [])
  ∧ documents (snd r)
    = documents w ++ [{| row_id := fresh_row_id (documents w);
                         row_filename := name; uploaded_by := id u;
                         row_department_id := dept |}]
  ∧ audits (snd r)
    = audits w ++ [{| audit_model := "Document"; audit_action := "create";
                      audit_details :=
                        [("status", "500");
                         ("detail",
                          "Internal Server Error: Unable to ingest file.")];
                      audit_user_id := id u |}]
  ∧ ingest_file_route UPLOAD_DIR can_write file u (snd r)
    = (Raise (HTTPException 409
                "File already exists. Choose a different file." []), snd r).
Proof.
  intros file r Hfresh Hdept Hfail.
  apply find_filename_fresh in Hfresh.
  assert (Hrun : fst r = Raise (HTTPException 500
                   "Internal Server Error: Unable to ingest file." [])
    ∧ documents (snd r)
      = documents w ++ [{| row_id := fresh_row_id (documents w);
                           row_filename := name; uploaded_by := id u;
                           row_department_id := dept |}]
    ∧ audits (snd r)
      = audits w ++ [{| audit_model := "Document"; audit_action := "create";
                        audit_details :=
                          [("status", "500");
                           ("detail",
                            "Internal Server Error: Unable to ingest file.")];
                        audit_user_id := id u |}]).
  { subst r file. run_router. rewrite Hfresh. cbn. rewrite Hdept. cbn.
    rewrite (find_none_existsb _ _ Hfresh). cbn.
    destruct (can_write (upload_path_of UPLOAD_DIR name)) eqn:Hcw; cbn.
    - destruct Hfail as [Habs | (e & s1 & Hi & He)]; [discriminate|].
      rewrite lookup_insert_eq. cbn. rewrite Hi. cbn. rewrite He.
      repeat split.
    - repeat split. }
  destruct Hrun as (Hout & Hdocs & Haud).
  repeat split; try assumption.
  apply (ingest_file_route_conflict UPLOAD_DIR can_write file u (snd r)
           {| row_id := fresh_row_id (documents w); row_filename := name;
              uploaded_by := id u; row_department_id := dept |}).
  - rewrite Hdocs. apply elem_of_app. right. apply list_elem_of_here.
  - reflexivity.
Qed.

(** X9: POST /v1/ingest/file refuses an upload without a file name with HTTP
    400, and an upload of a user without a department with HTTP 500 "Unable
    to upload file."; in both cases nothing is written, not even an audit
    row. *)
Theorem ingest_file_rejects_bad_requests (nameless file : UploadFile)
    (name : string) (u : User) (w : World S) :
  filename nameless = None →
  filename file = Some name →
  name ∉ map row_filename (documents w) →
  department_id u = None →
  ingest_file_route UPLOAD_DIR can_write nameless u w
  = (Raise (HTTPException 400 "No file name provided" []), w)
  ∧ ingest_file_route UPLOAD_DIR can_write file u w
    = (Raise (HTTPException 500 "Unable to upload file." []), w).
Proof.
  intros Hnameless Hname Hfresh Hdept.
  apply find_filename_fresh in Hfresh.
  destruct nameless as [n1 b1], file as [n2 b2]. cbn in Hnameless, Hname.
  subst n1 n2. split.
  - reflexivity.
  - run_router. rewrite Hfresh. cbn. rewrite Hdept. reflexivity.
Qed.

(** X10: uploading a file and then deleting it by name brings the document
    table back to what it was: the row found for the name is the one the
    upload inserted, its id is above every other id, and the uploaded file is
    gone from the upload directory.  The audit trail has grown by the
    [create] row and the [delete] row, in that order. *)
Theorem ingest_then_delete_restores_table (name bytes : string)
    (u remover : User) (w : World S) (ids : list string) (s2 : S) :
  let file := {| filename := Some name; file_bytes := bytes |} in
  let w1 := snd (ingest_file_route UPLOAD_DIR can_write file u w) in
  let r := delete_file UPLOAD_DIR {| del_filename := name |} remover w1 in
  is_Return (fst (ingest_file_route UPLOAD_DIR can_write file u w)) = true →
  get_doc_ids_by_filename name (service w1) = Return ids →
  ids ≠ [] →
  for_each ids delete (service w1) = (Return tt, s2) →
  fst r = Return (Spec.success_message name)
  ∧ documents (snd r) = documents w
  ∧ uploads (snd r) = base.delete (upload_path_of UPLOAD_DIR name) (uploads w)
  ∧ service (snd r) = s2
  ∧ audits (snd r)
    = audits w
      ++ [{| audit_model := "Document"; audit_action := "create";
             audit_details := [("status", "200"); ("filename", name);
                               ("user", fullname u)];
             audit_user_id := id u |};
          Spec.delete_audit name remover].
Proof.
  cbv zeta. intros Hret Hids Hne Hdel.
  rewrite (delete_file_success UPLOAD_DIR {| del_filename := name |} remover _
             ids s2 Hids Hne Hdel).
  destruct (ingest_file_route_success name bytes u w Hret)
    as (dept & docs & s1 & Hfresh & Hi & Hrun).
  rewrite Hrun. cbn.
  erewrite find_filename_snoc; [|exact Hfresh|reflexivity]. cbn.
  rewrite filter_fresh_row by reflexivity.
  rewrite delete_insert_eq, <- app_assoc. repeat split.
Qed.

(** X11: POST /v1/ingest/file1 never raises for an upload that has a file
    name: whether the write and the ingestion succeed or fail, it returns;
    it writes no row into the document table and no audit row.  Only an
    upload without a file name is refused, with HTTP 400 and nothing
    touched. *)
Theorem ingest_file1_swallows_errors (file nameless : UploadFile) (name : string)
    (w : World S) :
  filename file = Some name →
  filename nameless = None →
  is_Return (fst (ingest_file_1 UPLOAD_DIR can_write file w)) = true
  ∧ documents (snd (ingest_file_1 UPLOAD_DIR can_write file w)) = documents w
  ∧ audits (snd (ingest_file_1 UPLOAD_DIR can_write file w)) = audits w
  ∧ ingest_file_1 UPLOAD_DIR can_write nameless w
    = (Raise (HTTPException 400 "No file name provided" []), w).
Proof.
  intros Hname Hnameless.
  destruct file as [n bytes], nameless as [n' bytes']. cbn in Hname, Hnameless.
  subst n n'. split; [|split; [|split]]; try reflexivity; run_router.
  - destruct (can_write (upload_path_of UPLOAD_DIR name)); cbn; [|reflexivity].
    rewrite lookup_insert_eq. cbn.
    destruct (ingest_bin_data name bytes (service w)) as [[docs|e] s1];
      reflexivity.
  - destruct (can_write (upload_path_of UPLOAD_DIR name)); cbn; [|reflexivity].
    rewrite lookup_insert_eq. cbn.
    destruct (ingest_bin_data name bytes (service w)) as [[docs|e] s1];
      reflexivity.
  - destruct (can_write (upload_path_of UPLOAD_DIR name)); cbn; [|reflexivity].
    rewrite lookup_insert_eq. cbn.
    destruct (ingest_bin_data name bytes (service w)) as [[docs|e] s1];
      reflexivity.
Qed.

(** X12: when [service.delete] raises for one of the document ids of the
    file name, POST /v1/ingest/file/delete answers HTTP 500; the deletions
    made before the failure stay, while the uploaded file, the row of the
    document table and the audit trail are left as they were. *)
Theorem delete_file_stops_at_failed_deletion (d : DeleteFilename) (u : User)
    (w : World S) (ids : list string) (e : exn) (s' : S) :
  get_doc_ids_by_filename (del_filename d) (service w) = Return ids →
  ids ≠ [] →
  for_each ids delete (service w) = (Raise e, s') →
  let r := delete_file UPLOAD_DIR d u w in
  fst r = Raise (HTTPException 500 "Internal Server Error" [])
  ∧ service (snd r) = s'
  ∧ documents (snd r) = documents w
  ∧ uploads (snd r) = uploads w
  ∧ audits (snd r) = audits w.
Proof.
  intros Hids Hne Hdel r. subst r.
  rewrite (delete_file_loop_fails UPLOAD_DIR d u w ids e s' Hids Hne Hdel).
  repeat split.
Qed.

(** X13: POST /v1/ingest/file/delete succeeds for a file name that the
    service knows but the document table does not: the documents are deleted
    from the storage context and the success message is returned, yet no
    audit row is written and the table is left as it is. *)
Theorem delete_file_without_row_leaves_no_audit (d : DeleteFilename) (u : User)
    (w : World S) (ids : list string) (s' : S) :
  get_doc_ids_by_filename (del_filename d) (service w) = Return ids →
  ids ≠ [] →
  for_each ids delete (service w) = (Return tt, s') →
  del_filename d ∉ map row_filename (documents w) →
  let r := delete_file UPLOAD_DIR d u w in
  fst r = Return (Spec.success_message (del_filename d))
  ∧ service (snd r) = s'
  ∧ documents (snd r) = documents w
  ∧ audits (snd r) = audits w.
Proof.
  intros Hids Hne Hdel Hfresh r. subst r.
  rewrite (delete_file_success UPLOAD_DIR d u w ids s' Hids Hne Hdel).
  rewrite (find_filename_fresh _ _ Hfresh). cbn.
  rewrite app_nil_r. repeat split.
Qed.

(** X14: [common_ingest_logic] never returns.  Its [log_audit] is a
    [Depends(...)] object, which cannot be called: when reading, inserting,
    writing and ingesting all go through, the call that should record the
    success raises a [TypeError], the handler for it raises the same again,
    and the caller gets that [TypeError] although the row is in the table,
    the file is in the upload directory and the documents are ingested.  In
    no case is an audit row written. *)
Theorem common_ingest_logic_never_returns (db : PyVal) (path ocr_file : string)
    (u v : User) (w w0 : World S) (original : string) (dept : Z)
    (docs : list IngestedDoc) (s1 : S) :
  uploads w !! ocr_file = Some original →
  path_name ocr_file ∉ map row_filename (documents w) →
  department_id u = Some dept →
  upload_path_of UPLOAD_DIR (path_name ocr_file) ≠ ocr_file →
  can_write (upload_path_of UPLOAD_DIR (path_name ocr_file)) = true →
  ingest_bin_data (path_name ocr_file) original (service w) = (Return docs, s1) →
  let r := common_ingest_logic UPLOAD_DIR can_write path_name db path v w0 in
  is_Return (fst r) = false
  ∧ audits (snd r) = audits w0
  ∧ common_ingest_logic UPLOAD_DIR can_write path_name VSession ocr_file u w
    = (Raise (TypeError "object is not callable"),
       {| documents := documents w
                       ++ [{| row_id := fresh_row_id (documents w);
                              row_filename := path_name ocr_file;
                              uploaded_by := id u;
                              row_department_id := dept |}];
          uploads := <[upload_path_of UPLOAD_DIR (path_name ocr_file) := original]>
                       (uploads w);
          service := s1;
          audits := audits w |}).
Proof.
  intros Hfile Hfresh Hdept Halias Hcw Hi r.
  split; [|split].
  - subst r. clear Hfile Hfresh Hdept Halias Hcw Hi. run_router.
    destruct (uploads w0 !! path) as [content|]; cbn; [|reflexivity].
    destruct db; cbn; try reflexivity.
    destruct (find (fun d => String.eqb (row_filename d) (path_name path))
                (documents w0)); cbn; [reflexivity|].
    destruct (department_id v); cbn; [|reflexivity].
    destruct (existsb (fun d => String.eqb (row_filename d) (path_name path))
                (documents w0)); cbn; [reflexivity|].
    destruct (can_write (upload_path_of UPLOAD_DIR (path_name path))); cbn;
      [|reflexivity].
    destruct (ingest_bin_data (path_name path)
                (if String.eqb (upload_path_of UPLOAD_DIR (path_name path)) path
                 then EmptyString else content) (service w0))
      as [[ds|e] s0]; cbn; [reflexivity|].
    destruct (is_HTTPException e); reflexivity.
  - subst r. clear Hfile Hfresh Hdept Halias Hcw Hi. run_router.
    destruct (uploads w0 !! path) as [content|]; cbn; [|reflexivity].
    destruct db; cbn; try reflexivity.
    destruct (find (fun d => String.eqb (row_filename d) (path_name path))
                (documents w0)); cbn; [reflexivity|].
    destruct (department_id v); cbn; [|reflexivity].
    destruct (existsb (fun d => String.eqb (row_filename d) (path_name path))
                (documents w0)); cbn; [reflexivity|].
    destruct (can_write (upload_path_of UPLOAD_DIR (path_name path))); cbn;
      [|reflexivity].
    destruct (ingest_bin_data (path_name path)
                (if String.eqb (upload_path_of UPLOAD_DIR (path_name path)) path
                 then EmptyString else content) (service w0))
      as [[ds|e] s0]; cbn; [reflexivity|].
    destruct (is_HTTPException e); reflexivity.
  - apply find_filename_fresh in Hfresh.
    apply String.eqb_neq in Halias.
    run_router. rewrite Hfile. cbn. rewrite Hfresh. cbn. rewrite Hdept. cbn.
    rewrite (find_none_existsb _ _ Hfresh). cbn.
    rewrite Halias, Hcw. cbn. rewrite Hi. reflexivity.
Qed.

End IngestMore.

(** *** Runs on the fixtures *)

(** The upload directory is read-only: the first upload of the report fails
    with 500, and the second is refused with 409. *)
Lemma failed_upload_blocks_retry_witness :
  let first := IngestRouter.ingest_file_route "uploads" Sample.read_only_dir
                 Sample.report Sample.admin Sample.world0 in
  fst first = Raise (HTTPException 500
                       "Internal Server Error: Unable to ingest file." [])
  ∧ IngestRouter.documents (snd first) = [Sample.report_row]
  ∧ IngestRouter.ingest_file_route "uploads" Sample.read_only_dir Sample.report
      Sample.admin (snd first)
    = (Raise (HTTPException 409
                "File already exists. Choose a different file." []), snd first).
Proof.
  intros first.
  destruct (failed_upload_blocks_retry "uploads" Sample.read_only_dir
              "report.pdf" "%PDF-1.7" Sample.admin 3 Sample.world0)
    as (Hout & Hdocs & _ & Hretry).
  - intros Hin. inversion Hin.
  - reflexivity.
  - left. reflexivity.
  - split; [exact Hout|]. split; [exact Hdocs | exact Hretry].
Defined.

Lemma ingest_file_rejects_bad_requests_witness :
  IngestRouter.ingest_file_route "uploads" Sample.writable Sample.unnamed
    Sample.visitor Sample.world0
  = (Raise (HTTPException 400 "No file name provided" []), Sample.world0)
  ∧ IngestRouter.ingest_file_route "uploads" Sample.writable Sample.report
      Sample.visitor Sample.world0
    = (Raise (HTTPException 500 "Unable to upload file." []), Sample.world0).
Proof.
  apply (ingest_file_rejects_bad_requests "uploads" Sample.writable
           Sample.unnamed Sample.report "report.pdf" Sample.visitor
           Sample.world0).
  - reflexivity.
  - reflexivity.
  - intros Hin. inversion Hin.
  - reflexivity.
Defined.

(** The report is uploaded into the empty deployment and deleted again. *)
Lemma ingest_then_delete_restores_table_witness :
  let r := IngestRouter.delete_file "uploads"
             {| IngestRouter.del_filename := "report.pdf" |} Sample.admin
             Sample.world1 in
  fst r = Return (Spec.success_message "report.pdf")
  ∧ IngestRouter.documents (snd r) = []
  ∧ IngestRouter.service (snd r) = [].
Proof.
  intros r.
  destruct (ingest_then_delete_restores_table "uploads" Sample.writable
              "report.pdf" "%PDF-1.7" Sample.admin Sample.admin Sample.world0
              ["doc:report.pdf"] [])
    as (Hout & Hdocs & _ & Hsvc & _).
  - reflexivity.
  - reflexivity.
  - discriminate.
  - reflexivity.
  - split; [exact Hout|]. split; [exact Hdocs | exact Hsvc].
Defined.

Lemma ingest_file1_swallows_errors_witness :
  is_Return (fst (IngestRouter.ingest_file_1 "uploads" Sample.read_only_dir
                    Sample.report Sample.world0)) = true
  ∧ IngestRouter.ingest_file_1 "uploads" Sample.read_only_dir Sample.unnamed
      Sample.world0
    = (Raise (HTTPException 400 "No file name provided" []), Sample.world0).
Proof.
  destruct (ingest_file1_swallows_errors "uploads" Sample.read_only_dir
              Sample.report Sample.unnamed "report.pdf" Sample.world0
              eq_refl eq_refl)
    as (Hret & _ & _ & Hbad).
  split; [exact Hret | exact Hbad].
Defined.

(** The read-only service refuses the deletion: the row of the report
    stays. *)
Lemma delete_file_stops_at_failed_deletion_witness :
  let r := IngestRouter.delete_file "uploads"
             {| IngestRouter.del_filename := "report.pdf" |} Sample.admin
             Sample.frozen in
  fst r = Raise (HTTPException 500 "Internal Server Error" [])
  ∧ IngestRouter.documents (snd r) = [Sample.report_row]
  ∧ IngestRouter.audits (snd r) = [].
Proof.
  intros r.
  destruct (delete_file_stops_at_failed_deletion "uploads"
              {| IngestRouter.del_filename := "report.pdf" |} Sample.admin
              Sample.frozen ["doc:report.pdf"] (RuntimeError "read-only")
              Sample.read_only)
    as (Hout & _ & Hdocs & _ & Haud).
  - reflexivity.
  - discriminate.
  - reflexivity.
  - split; [exact Hout|]. split; [exact Hdocs | exact Haud].
Defined.

(** Notes ingested through POST /v1/ingest/text have no row in the document
    table; deleting them by name succeeds without an audit row. *)
Lemma delete_file_without_row_leaves_no_audit_witness :
  let notes := snd (IngestRouter.ingest_text_route
                      {| IngestRouter.file_name := "notes";
                         IngestRouter.text := "hello" |} Sample.world0) in
  let r := IngestRouter.delete_file "uploads"
             {| IngestRouter.del_filename := "notes" |} Sample.admin notes in
  fst r = Return (Spec.success_message "notes")
  ∧ IngestRouter.service (snd r) = []
  ∧ IngestRouter.documents (snd r) = []
  ∧ IngestRouter.audits (snd r) = [].
Proof.
  intros notes r.
  apply (delete_file_without_row_leaves_no_audit "uploads"
           {| IngestRouter.del_filename := "notes" |} Sample.admin notes
           ["doc:notes"] []).
  - reflexivity.
  - discriminate.
  - reflexivity.
  - intros Hin. inversion Hin.
Defined.

(** The scan is read, registered, copied and ingested, and the call still
    ends in a [TypeError]. *)
Lemma common_ingest_logic_never_returns_witness :
  let r := IngestRouter.common_ingest_logic "uploads" Sample.writable
             Sample.scan_name IngestRouter.VSession "/tmp/scan.txt" Sample.admin
             Sample.scans in
  fst r = Raise (TypeError "object is not callable")
  ∧ IngestRouter.service (snd r) = [IngestRouter.mem_doc "scan.txt"]
  ∧ IngestRouter.audits (snd r) = [].
Proof.
  intros r.
  destruct (common_ingest_logic_never_returns "uploads" Sample.writable
              Sample.scan_name IngestRouter.VSession "/tmp/scan.txt"
              "/tmp/scan.txt" Sample.admin Sample.admin Sample.scans
              Sample.scans "scanned text" 3
              [IngestRouter.mem_doc "scan.txt"] [IngestRouter.mem_doc "scan.txt"])
    as (_ & _ & Hrun).
  - reflexivity.
  - intros Hin. inversion Hin.
  - reflexivity.
  - discriminate.
  - reflexivity.
  - reflexivity.
  - subst r. rewrite Hrun. repeat split.
Defined.

(** ** utils/ollama.py: the progress bars of a pull *)

Section ProcessStreamingFacts.
Variable Bar : Type.
Variable create_progress_bar : string -> Z -> Bar.
Variable bar_n : Bar -> Z.
Variable bar_update : Bar -> Z -> Bar.
Variable bar_close : Bar -> Bar.
Variable bar_store : Bar -> Z -> Z -> Bar.

Lemma open_bar_discipline (d : string) (completed_size total_size : Z)
    (st : Ollama.Progress Bar) :
  Spec.queue_discipline st →
  Spec.queue_discipline
    (Ollama.open_bar Bar create_progress_bar d completed_size total_size st).
Proof.
  intros Hst. pose proof Hst as (Hnd & Hq & Hc & Hn). unfold Ollama.open_bar.
  destruct (Ollama.progress_bars Bar st !! d) as [b|] eqn:Hd; [exact Hst|].
  destruct (0 <? completed_size)%Z; [|exact Hst].
  assert (Hdq : d ∉ Ollama.queue Bar st).
  { intros Hin. destruct (Hq d Hin) as [b Hb]. congruence. }
  destruct (Ollama.current_digest Bar st) as [c|] eqn:Hcur;
    unfold Spec.queue_discipline; cbn.
  - destruct (Hc c eq_refl) as [Hcb Hcq].
    split; [|split; [|split]].
    + apply NoDup_app. split; [exact Hnd|]. split; [|apply NoDup_singleton].
      intros x Hx Hx'. apply list_elem_of_singleton in Hx'. subst x. contradiction.
    + intros x Hx. apply lookup_insert_is_Some'.
      apply elem_of_app in Hx as [Hx|Hx]; [right; apply Hq; exact Hx|].
      apply list_elem_of_singleton in Hx. left. congruence.
    + intros x Hx. injection Hx as <-. split.
      * apply lookup_insert_is_Some'. right. exact Hcb.
      * intros Hin. apply elem_of_app in Hin as [Hin|Hin]; [contradiction|].
        apply list_elem_of_singleton in Hin. subst c.
        destruct Hcb as [b Hb]. congruence.
    + discriminate.
  - rewrite (Hn eq_refl) in *.
    split; [|split; [|split]].
    + apply NoDup_nil_2.
    + intros x Hx. inversion Hx.
    + intros x Hx. injection Hx as <-. split.
      * apply lookup_insert_is_Some'. left. reflexivity.
      * intros Hin. inversion Hin.
    + discriminate.
Qed.

Lemma advance_discipline (d : string) (completed_size total_size : Z)
    (st : Ollama.Progress Bar) :
  Spec.queue_discipline st →
  Spec.queue_discipline
    (Ollama.advance Bar bar_n bar_update bar_close bar_store d completed_size
       total_size st).
Proof.
  intros Hst. pose proof Hst as (Hnd & Hq & Hc & Hn). unfold Ollama.advance.
  destruct (Ollama.progress_bars Bar st !! d) as [b|] eqn:Hd; [|exact Hst].
  cbn zeta. destruct (_ && _); [|exact Hst].
  assert (Hkeep : ∀ (x : string) (v : Bar),
             is_Some (Ollama.progress_bars Bar st !! x) →
             is_Some (<[d := v]> (Ollama.progress_bars Bar st) !! x)).
  { intros x v Hx. apply lookup_insert_is_Some'. right. exact Hx. }
  destruct (bool_decide (Some d = Ollama.current_digest Bar st)) eqn:Hcur.
  - destruct (total_size <=? bar_n (bar_update b (completed_size - bar_n b)))%Z.
    + destruct (Ollama.queue Bar st) as [|next rest] eqn:Hqueue;
        unfold Spec.queue_discipline; cbn.
      * split; [apply NoDup_nil_2|]. split; [intros x Hx; inversion Hx|].
        split; [discriminate | reflexivity].
      * apply NoDup_cons in Hnd as [Hnext Hrest].
        split; [exact Hrest|]. split.
        { intros x Hx. apply Hkeep, Hq. apply list_elem_of_further. exact Hx. }
        split; [|discriminate].
        intros x Hx. injection Hx as <-. split; [|exact Hnext].
        apply Hkeep, Hq. apply list_elem_of_here.
    + unfold Spec.queue_discipline; cbn.
      split; [exact Hnd|]. split; [intros x Hx; apply Hkeep, Hq; exact Hx|].
      split; [|exact Hn].
      intros x Hx. destruct (Hc x Hx) as [Hb Hnq].
      split; [apply Hkeep; exact Hb | exact Hnq].
  - unfold Spec.queue_discipline; cbn.
    split; [exact Hnd|]. split; [intros x Hx; apply Hkeep, Hq; exact Hx|].
    split; [|exact Hn].
    intros x Hx. destruct (Hc x Hx) as [Hb Hnq].
    split; [apply Hkeep; exact Hb | exact Hnq].
Qed.

Lemma step_discipline (st : Ollama.Progress Bar) (chunk : Ollama.Chunk) :
  Spec.queue_discipline st →
  Spec.queue_discipline
    (Ollama.step Bar create_progress_bar bar_n bar_update bar_close bar_store
       st chunk).
Proof.
  intros Hst. unfold Ollama.step.
  destruct (Ollama.truthy (Ollama.digest chunk)) as [d|]; [|exact Hst].
  destruct (Ollama.total chunk) as [t|]; [|exact Hst].
  apply advance_discipline, open_bar_discipline. exact Hst.
Qed.

(** X15: whatever the chunks of the pull and whatever the bars do,
    [process_streaming] keeps its queue in order: the digests waiting in it
    are distinct and each has a bar, the current digest has a bar and is not
    waiting, and nothing waits unless some digest is current. *)
Theorem process_streaming_queue_discipline (chunks : list Ollama.Chunk) :
  Spec.queue_discipline
    (Ollama.loop Bar create_progress_bar bar_n bar_update bar_close bar_store
       chunks).
Proof.
  unfold Ollama.loop.
  assert (Hstart : Spec.queue_discipline (Ollama.start Bar)).
  { unfold Spec.queue_discipline, Ollama.start; cbn.
    split; [apply NoDup_nil_2|]. split; [intros d Hd; inversion Hd|].
    split; [discriminate | reflexivity]. }
  revert Hstart. generalize (Ollama.start Bar) as st.
  induction chunks as [|chunk chunks IH]; intros st Hst; [exact Hst|].
  cbn. apply IH, step_discipline. exact Hst.
Qed.

Lemma step_dom (st : Ollama.Progress Bar) (chunk : Ollama.Chunk) :
  dom (Ollama.progress_bars Bar
         (Ollama.step Bar create_progress_bar bar_n bar_update bar_close
            bar_store st chunk))
  = dom (Ollama.progress_bars Bar st)
    ∪ (match Spec.reported chunk with Some d => {[d]} | None => ∅ end : gset string).
Proof.
  assert (Hadv : ∀ d c t st',
    dom (Ollama.progress_bars Bar
           (Ollama.advance Bar bar_n bar_update bar_close bar_store d c t st'))
    = dom (Ollama.progress_bars Bar st')).
  { intros d c t st'. unfold Ollama.advance.
    destruct (Ollama.progress_bars Bar st' !! d) as [b|] eqn:Hd; [|reflexivity].
    assert (Hin : d ∈ dom (Ollama.progress_bars Bar st'))
      by (apply elem_of_dom; eauto).
    cbn zeta. destruct (_ && _); [|reflexivity].
    destruct (bool_decide _).
    - destruct (_ <=? _)%Z; [destruct (Ollama.queue Bar st')|];
        cbn; rewrite dom_insert_L; set_solver.
    - cbn. rewrite dom_insert_L. set_solver. }
  unfold Ollama.step, Spec.reported, Ollama.truthy.
  destruct (Ollama.digest chunk) as [d|]; [|set_solver].
  destruct (String.eqb d EmptyString) eqn:Hempty.
  { apply String.eqb_eq in Hempty. subst d.
    destruct (Ollama.total chunk); [|set_solver].
    rewrite bool_decide_eq_false_2 by (intros [Hne _]; apply Hne; reflexivity).
    set_solver. }
  apply String.eqb_neq in Hempty.
  destruct (Ollama.total chunk) as [t|]; [|set_solver].
  rewrite Hadv. unfold Ollama.open_bar.
  destruct (Ollama.progress_bars Bar st !! d) as [b|] eqn:Hd.
  - assert (Hin : d ∈ dom (Ollama.progress_bars Bar st))
      by (apply elem_of_dom; eauto).
    destruct (bool_decide _); set_solver.
  - destruct (0 <? Ollama.completed chunk)%Z eqn:Hpos.
    + apply Z.ltb_lt in Hpos.
      rewrite bool_decide_eq_true_2 by (split; assumption).
      destruct (Ollama.current_digest Bar st); cbn; rewrite dom_insert_L;
        set_solver.
    + apply Z.ltb_ge in Hpos.
      rewrite bool_decide_eq_false_2 by (intros [_ Hlt]; lia).
      set_solver.
Qed.

(** X16: [process_streaming] ends with one bar, closed, for each digest that
    some chunk reported with a total and a positive completed size, and with
    no other bar: a digest whose chunks all carry [completed = 0], no total
    or an empty name never gets one. *)
Theorem process_streaming_bars (chunks : list Ollama.Chunk) :
  dom (Ollama.process_streaming Bar create_progress_bar bar_n bar_update
         bar_close bar_store chunks)
  = (list_to_set (omap Spec.reported chunks) : gset string).
Proof.
  unfold Ollama.process_streaming, Ollama.loop. rewrite dom_fmap_L.
  assert (Hgen : ∀ st,
    dom (Ollama.progress_bars Bar
           (foldl (Ollama.step Bar create_progress_bar bar_n bar_update
                     bar_close bar_store) st chunks))
    = dom (Ollama.progress_bars Bar st)
      ∪ (list_to_set (omap Spec.reported chunks) : gset string)).
  { induction chunks as [|chunk chunks IH]; intros st; cbn; [set_solver|].
    rewrite IH, step_dom.
    destruct (Spec.reported chunk); cbn; set_solver. }
  rewrite Hgen. cbn. rewrite dom_empty_L. set_solver.
Qed.

End ProcessStreamingFacts.

(** ** utils/ollama.py: pulling a model *)

(** X17: [pull_model] first lists the installed models.  If the model is
    among them it stops there, without pulling.  If it is not, it pulls it
    once.  An exception of the listing or of the pull is raised again when
    [raise_error] is true and is swallowed when it is false: with
    [raise_error=False], [pull_model] returns whatever the client does.
    When the listing fails, [check_connection] answers [False]. *)
Theorem pull_model_contract (client down : Ollama.Client)
    (installed missing : string) (names : list string) (e : exn)
    (raise_error : bool) (t : list Ollama.ClientCall) :
  Ollama.list_models client = Return names →
  installed ∈ names →
  missing ∉ names →
  Ollama.list_models down = Raise e →
  Ollama.pull_model client installed raise_error t
  = (Return tt, t ++ [Ollama.CallList])
  ∧ Ollama.pull_model client missing raise_error t
    = (match snd (Ollama.pull client missing) with
       | Some failure => if raise_error then Raise failure else Return tt
       | None => Return tt
       end,
       t ++ [Ollama.CallList; Ollama.CallPull missing])
  ∧ Ollama.pull_model down missing raise_error t
    = (if raise_error then Raise e else Return tt, t ++ [Ollama.CallList])
  ∧ fst (Ollama.pull_model client missing false t) = Return tt
  ∧ fst (Ollama.pull_model down missing false t) = Return tt
  ∧ Ollama.check_connection client t = (Return true, t ++ [Ollama.CallList])
  ∧ Ollama.check_connection down t = (Return false, t ++ [Ollama.CallList]).
Proof.
  intros Hlist Hin Hout Hdown.
  assert (Hpull : Ollama.pull_model client missing raise_error t
    = (match snd (Ollama.pull client missing) with
       | Some failure => if raise_error then Raise failure else Return tt
       | None => Return tt
       end,
       t ++ [Ollama.CallList; Ollama.CallPull missing])).
  { unfold Ollama.pull_model, try_except, bind, lift, Ollama.call, modify, ret,
      raise.
    rewrite Hlist. cbn.
    rewrite (bool_decide_eq_false_2 _ Hout). cbn.
    rewrite <- app_assoc. cbn.
    destruct (snd (Ollama.pull client missing)) as [failure|]; [|reflexivity].
    destruct raise_error; reflexivity. }
  assert (Hfail : ∀ re, Ollama.pull_model down missing re t
    = (if re then Raise e else Return tt, t ++ [Ollama.CallList])).
  { intros re.
    unfold Ollama.pull_model, try_except, bind, lift, Ollama.call, modify, ret,
      raise.
    rewrite Hdown. cbn. destruct re; reflexivity. }
  split; [|split; [exact Hpull|split; [apply Hfail|split; [|split; [|split]]]]].
  - unfold Ollama.pull_model, try_except, bind, lift, Ollama.call, modify, ret.
    rewrite Hlist. cbn. rewrite (bool_decide_eq_true_2 _ Hin). reflexivity.
  - unfold Ollama.pull_model, try_except, bind, lift, Ollama.call, modify, ret,
      raise.
    rewrite Hlist. cbn. rewrite (bool_decide_eq_false_2 _ Hout). cbn.
    destruct (snd (Ollama.pull client missing)); reflexivity.
  - rewrite Hfail. reflexivity.
  - unfold Ollama.check_connection, try_except, bind, lift, Ollama.call, modify,
      ret.
    rewrite Hlist. reflexivity.
  - unfold Ollama.check_connection, try_except, bind, lift, Ollama.call, modify,
      ret.
    rewrite Hdown. reflexivity.
Qed.

(** A client with one installed model whose pulls break off, and a client
    that cannot be reached. *)
Lemma pull_model_contract_witness :
  let client := {| Ollama.list_models := Return ["llama2"];
                   Ollama.pull := fun _ => ([], Some (RuntimeError "timeout")) |} in
  let down := {| Ollama.list_models := Raise (OSError "refused");
                 Ollama.pull := fun _ => ([], None) |} in
  Ollama.pull_model client "llama2" true [] = (Return tt, [Ollama.CallList])
  ∧ Ollama.pull_model client "mistral" true []
    = (Raise (RuntimeError "timeout"),
       [Ollama.CallList; Ollama.CallPull "mistral"])
  ∧ Ollama.pull_model down "mistral" true []
    = (Raise (OSError "refused"), [Ollama.CallList]).
Proof.
  intros client down.
  destruct (pull_model_contract client down "llama2" "mistral" ["llama2"]
              (OSError "refused") true [])
    as (Hinstalled & Hmissing & Hdown & _).
  - reflexivity.
  - apply list_elem_of_here.
  - intros Hin. apply list_elem_of_singleton in Hin. discriminate.
  - reflexivity.
  - split; [exact Hinstalled|]. split; [exact Hmissing | exact Hdown].
Defined.
